(** * try-swift-2016: the two slide-deck scripts

    [remove_transcript.py] drops the annotation lines of [slides.md];
    [update_time.py] recomputes the start time of every timed annotation
    from a running clock.  Both scripts are Python 2: [str] is a byte
    string, [/] on integers is floor division, [map] and [filter] are
    eager and return lists.

    The file is organised as follows.
    - [Str]   : byte strings, digits, [int], and the [%d] / [%02d] formats.
    - [Re]    : the fragment of Python's [re] the scripts use: a
                backtracking matcher with capture groups, [re.search]
                and [re.sub].
    - [Script]: the two scripts themselves.
    - [Deck]  : timed annotations, marker lines, and what a run of
                [update_time.py] lets one observe line by line.
    - [Trace] : the scan read from the left, and the seconds of a deck.
    - [Files] : [readlines], [writelines] and the scripts run on a
                directory.
    - [StrFacts], [ReFacts], [ScriptFacts], [TraceFacts], [FilesFacts]:
      the lemmas.
    - the properties of the two scripts. *)

From Stdlib Require Import ZArith List Bool Arith Lia.
From Stdlib Require Import Strings.Ascii Strings.String.
Import ListNotations.

Open Scope string_scope.
Open Scope list_scope.

(* ================================================================= *)
(** ** Byte strings and numbers *)

Module Str.

(** [c in "0123456789"], the class [[0-9]] of the patterns. *)
Definition is_digit (c : ascii) : bool :=
  let n := nat_of_ascii c in (48 <=? n)%nat && (n <=? 57)%nat.

Fixpoint all_digits (s : string) : bool :=
  match s with
  | EmptyString => true
  | String c s' => is_digit c && all_digits s'
  end.

(** A field of a timed annotation: one or more decimal digits. *)
Definition is_number (s : string) : bool :=
  match s with
  | EmptyString => false
  | String _ _ => all_digits s
  end.

(** [s] does not begin with a digit. *)
Definition no_digit_ahead (s : string) : bool :=
  match s with
  | EmptyString => true
  | String c _ => negb (is_digit c)
  end.

Definition digit_val (c : ascii) : Z := Z.of_nat (nat_of_ascii c) - 48.

Definition digit_chr (d : Z) : ascii := ascii_of_nat (Z.to_nat (d + 48)).

(** Value of a digit string read in base ten, most significant digit
    first, starting from the accumulator [acc]. *)
Fixpoint digits_value_from (acc : Z) (s : string) : Z :=
  match s with
  | EmptyString => acc
  | String c s' => digits_value_from (10 * acc + digit_val c) s'
  end.

Definition digits_value (s : string) : Z := digits_value_from 0 s.

(** Python's [int(s)] on the strings the scripts apply it to.  [None]
    stands for the [ValueError] raised on a string that is not a
    non-empty run of digits (signs and surrounding blanks, which [int]
    also reads, cannot occur inside a [[0-9]+] group). *)
Definition int (s : string) : option Z :=
  if is_number s then Some (digits_value s) else None.

(** Decimal digits of a non-negative [n], pushed in front of [acc]. *)
Fixpoint digits_fuel (fuel : nat) (n : Z) (acc : string) : string :=
  let acc' := String (digit_chr (n mod 10)) acc in
  match fuel with
  | O => acc'
  | S f => if (n / 10 =? 0)%Z then acc' else digits_fuel f (n / 10) acc'
  end.

(** The decimal numeral of [n >= 0].  The fuel is the binary logarithm
    of [n], which is at least the number of digits after the first. *)
Definition digits_of (n : Z) : string :=
  digits_fuel (Z.to_nat (Z.log2 n)) n EmptyString.

(** ["%d" % z]. *)
Definition fmt_d (z : Z) : string :=
  if (z <? 0)%Z then String "-" (digits_of (- z)) else digits_of z.

(** ["%02d" % z]: at least two characters, filled with zeros on the
    left (a negative number already has two). *)
Definition fmt_02d (z : Z) : string :=
  let s := fmt_d z in
  if (String.length s <? 2)%nat then String "0" s else s.

(** [s.startswith(p)] *)
Fixpoint starts_with (p s : string) : bool :=
  match p with
  | EmptyString => true
  | String a p' =>
      match s with
      | EmptyString => false
      | String b s' => Ascii.eqb a b && starts_with p' s'
      end
  end.

End Str.

(* ================================================================= *)
(** ** The regular expressions of the scripts *)

Module Re.

(** The constructs that occur in the three patterns.  [Bol] is [^]
    (no [MULTILINE] flag is given, so it holds at offset 0 only),
    [Chr c] a literal or escaped character, [Digits] the greedy
    [[0-9]+], [Grp i r] the [i]-th capturing group. *)
Inductive regex : Type :=
| Bol
| Chr (c : ascii)
| Digits
| Cat (r1 r2 : regex)
| Alt (r1 r2 : regex)
| Grp (i : nat) (r : regex).

Fixpoint seq (rs : list regex) (last : regex) : regex :=
  match rs with
  | [] => last
  | r :: rs' => Cat r (seq rs' last)
  end.

(** Captured groups, most recent first. *)
Definition captures := list (nat * string).

(** A continuation receives the offset reached, the input left and the
    groups captured so far; [None] makes the matcher backtrack. *)
Definition cont := nat -> string -> captures -> option (nat * captures).

Definition accept : cont := fun pos _ cs => Some (pos, cs).

(** Greedy [[0-9]*]: take a digit and go on, fall back to the
    continuation when going on fails. *)
Fixpoint digits_star (pos : nat) (s : string) (cs : captures) (k : cont)
  : option (nat * captures) :=
  match s with
  | String c s' =>
      if Str.is_digit c then
        match digits_star (S pos) s' cs k with
        | Some x => Some x
        | None => k pos s cs
        end
      else k pos s cs
  | EmptyString => k pos s cs
  end.

(** The backtracking matcher, run at offset [pos] with [s] the input
    from that offset on. *)
Fixpoint rmatch (r : regex) (pos : nat) (s : string) (cs : captures)
  (k : cont) : option (nat * captures) :=
  match r with
  | Bol => if (pos =? 0)%nat then k pos s cs else None
  | Chr c =>
      match s with
      | String c' s' => if Ascii.eqb c c' then k (S pos) s' cs else None
      | EmptyString => None
      end
  | Digits =>
      match s with
      | String c s' =>
          if Str.is_digit c then digits_star (S pos) s' cs k else None
      | EmptyString => None
      end
  | Cat r1 r2 =>
      rmatch r1 pos s cs (fun pos' s' cs' => rmatch r2 pos' s' cs' k)
  | Alt r1 r2 =>
      match rmatch r1 pos s cs k with
      | Some x => Some x
      | None => rmatch r2 pos s cs k
      end
  | Grp i r' =>
      rmatch r' pos s cs
        (fun pos' s' cs' =>
           k pos' s' ((i, String.substring 0 (pos' - pos) s) :: cs'))
  end.

(** A match object: where the match starts and ends, and its groups. *)
Record match_obj : Type := MatchObj {
  m_start : nat;
  m_end : nat;
  m_groups : captures
}.

Fixpoint lookup (i : nat) (cs : captures) : option string :=
  match cs with
  | [] => None
  | (j, v) :: cs' => if (i =? j)%nat then Some v else lookup i cs'
  end.

(** [m.group(i)] for [i >= 1]; [None] is Python's [None] for a group
    that took no part in the match. *)
Definition group (m : match_obj) (i : nat) : option string :=
  lookup i (m_groups m).

(** [re.search]: the first offset, from the left, at which the pattern
    matches. *)
Fixpoint search_from (r : regex) (pos : nat) (s : string) : option match_obj :=
  match rmatch r pos s [] accept with
  | Some (e, cs) => Some (MatchObj pos e cs)
  | None =>
      match s with
      | String _ s' => search_from r (S pos) s'
      | EmptyString => None
      end
  end.

Definition search (r : regex) (s : string) : option match_obj :=
  search_from r 0 s.

(** [re.sub] with a replacement that holds no backslash (it is then
    inserted as it is).  [skip] counts the characters of the current
    match still to be dropped; [adj] says that a match ended at this
    very offset, where Python 2 ignores an empty match. *)
Fixpoint sub_from (r : regex) (repl : string) (pos : nat) (s : string)
  (skip : nat) (adj : bool) : string :=
  match skip with
  | S n =>
      match s with
      | String _ s' => sub_from r repl (S pos) s' n true
      | EmptyString => EmptyString
      end
  | O =>
      match rmatch r pos s [] accept with
      | Some (e, _) =>
          match (e - pos)%nat with
          | O =>
              (if adj then EmptyString else repl) ++
              match s with
              | String c s' => String c (sub_from r repl (S pos) s' 0 false)
              | EmptyString => EmptyString
              end
          | S n =>
              repl ++
              match s with
              | String _ s' => sub_from r repl (S pos) s' n true
              | EmptyString => EmptyString
              end
          end
      | None =>
          match s with
          | String c s' => String c (sub_from r repl (S pos) s' 0 false)
          | EmptyString => EmptyString
          end
      end
  end.

Definition sub (r : regex) (repl : string) (s : string) : string :=
  sub_from r repl 0 s 0 false.

(** [r"^(\^|^autoscale:)"] *)
Definition marker_re : regex :=
  Cat Bol
    (Grp 1 (Alt (Chr "^")
              (seq [Bol; Chr "a"; Chr "u"; Chr "t"; Chr "o"; Chr "s";
                    Chr "c"; Chr "a"; Chr "l"; Chr "e"] (Chr ":")))).

(** [r"^\^ \(([0-9]+):([0-9]+), ([0-9]+):([0-9]+)\)"] *)
Definition timed_re : regex :=
  seq [Bol; Chr "^"; Chr " "; Chr "(";
       Grp 1 Digits; Chr ":"; Grp 2 Digits; Chr ","; Chr " ";
       Grp 3 Digits; Chr ":"; Grp 4 Digits] (Chr ")").

(** [r"^\^ \("] *)
Definition prefix_re : regex :=
  seq [Bol; Chr "^"; Chr " "] (Chr "(").

(** [r"^\^ \(([0-9]+):([0-9]+)"] *)
Definition start_re : regex :=
  seq [Bol; Chr "^"; Chr " "; Chr "("; Grp 1 Digits; Chr ":"] (Grp 2 Digits).

End Re.

(* ================================================================= *)
(** ** The scripts *)

Module Script.

(** What the process has written to its standard output: one entry per
    [print], each the printed text followed by the newline [print]
    adds. *)
Definition stdout := list string.

Definition newline : string := String (ascii_of_nat 10) EmptyString.

(** Computations that print and may raise: [None] is an uncaught
    exception, which ends the script before anything is written. *)
Definition IO (A : Type) : Type := stdout -> option (A * stdout).

Definition ret {A} (a : A) : IO A := fun out => Some (a, out).

Definition bind {A B} (m : IO A) (f : A -> IO B) : IO B :=
  fun out =>
    match m out with
    | Some (a, out') => f a out'
    | None => None
    end.

Definition raise {A} : IO A := fun _ => None.

Definition print (s : string) : IO unit :=
  fun out => Some (tt, out ++ [(s ++ newline)%string]).

Definition lift {A} (o : option A) : IO A :=
  match o with
  | Some a => ret a
  | None => raise
  end.

Notation "x <- m ;; f" := (bind m (fun x => f))
  (at level 61, m at next level, right associativity).
Notation "m ;;; f" := (bind m (fun _ => f))
  (at level 61, right associativity).

(** Python 2's [map(f, xs)]: the calls are made from left to right and
    the list is built before [map] returns. *)
Fixpoint map_io {A B} (f : A -> IO B) (xs : list A) : IO (list B) :=
  match xs with
  | [] => ret []
  | x :: xs' => y <- f x ;; ys <- map_io f xs' ;; ret (y :: ys)
  end.

(** *** remove_transcript.py *)

(** [filter(lambda(line): not re.search(...), lines)], the lines
    written to [codes.md]. *)
Definition remove_transcript (lines : list string) : list string :=
  filter (fun line =>
            negb (match Re.search Re.marker_re line with
                  | Some _ => true
                  | None => false
                  end))
         lines.

(** *** update_time.py *)

(** [int(m.group(i))]: [int(None)] raises as well. *)
Definition int_group (m : Re.match_obj) (i : nat) : IO Z :=
  g <- lift (Re.group m i) ;; lift (Str.int g).

Definition foo (line : string) : IO (option Z * string) :=
  match Re.search Re.timed_re line with
  | Some m =>
      a <- int_group m 3 ;;
      b <- int_group m 4 ;;
      ret (Some (a * 60 + b)%Z, line)
  | None =>
      match Re.search Re.prefix_re line with
      | Some _ => print ("ERROR: " ++ line)%string ;;; ret (None, line)
      | None => ret (None, line)
      end
  end.

(** Truth value of [time] in [if time:]: [None] and [0] are false. *)
Definition truthy (time : option Z) : bool :=
  match time with
  | Some t => negb (t =? 0)%Z
  | None => false
  end.

(** ["^ (%d:%02d" % (minutes, seconds)] *)
Definition replacement (minutes seconds : Z) : string :=
  ("^ (" ++ Str.fmt_d minutes ++ ":" ++ Str.fmt_02d seconds)%string.

(** The variables the loop updates. *)
Record loop_state : Type := LoopState {
  current_time : Z;
  new_lines : list string
}.

(** One turn of [for time, line in timed_lines]. *)
Definition loop_body (st : loop_state) (tl : option Z * string) : loop_state :=
  let '(time, line) := tl in
  if truthy time then
    let minutes := (current_time st / 60)%Z in
    let seconds := (current_time st mod 60)%Z in
    let t := match time with Some t => t | None => 0%Z end in
    LoopState (current_time st + t)%Z
      (new_lines st ++ [Re.sub Re.start_re (replacement minutes seconds) line])
  else
    LoopState (current_time st) (new_lines st ++ [line]).

Definition init : loop_state := LoopState 0 [].

Definition scan (timed_lines : list (option Z * string)) : loop_state :=
  fold_left loop_body timed_lines init.

(** The whole script on the lines read from [slides.md]: the state the
    loop ends in, whose [new_lines] are written back. *)
Definition update_time (lines : list string) : IO loop_state :=
  timed_lines <- map_io foo lines ;;
  ret (scan timed_lines).

(** What can be observed of a run that starts with nothing printed. *)
Definition run (lines : list string) : option (loop_state * stdout) :=
  update_time lines [].

End Script.

(* ================================================================= *)
(** ** Lines of the slide deck and what a run shows *)

Module Deck.
Import Str Script.

(** The four fields of a timed annotation [^ (M1:S1, M2:S2)] and what
    follows the closing parenthesis on the line. *)
Record annotation : Type := Annotation {
  minutes1 : string;
  seconds1 : string;
  minutes2 : string;
  seconds2 : string;
  trailing : string
}.

Definition render (a : annotation) : string :=
  ("^ (" ++ minutes1 a ++ ":" ++ seconds1 a ++ ", " ++
   minutes2 a ++ ":" ++ seconds2 a ++ ")" ++ trailing a)%string.

(** Every field is one or more decimal digits. *)
Definition well_formed (a : annotation) : bool :=
  is_number (minutes1 a) && is_number (seconds1 a) &&
  is_number (minutes2 a) && is_number (seconds2 a).

(** The end-time fields read as a number of seconds. *)
Definition duration (a : annotation) : Z :=
  (digits_value (minutes2 a) * 60 + digits_value (seconds2 a))%Z.

(** [line] is the timed annotation [a]. *)
Definition timed (line : string) (a : annotation) : Prop :=
  well_formed a = true /\ line = render a.

Definition is_timed (line : string) : Prop := exists a, timed line a.

(** A line that opens like a timed annotation and is not one. *)
Definition malformed (line : string) : Prop :=
  starts_with "^ (" line = true /\ ~ is_timed line.

(** The lines the filter drops. *)
Definition marker (line : string) : bool :=
  starts_with "^" line || starts_with "autoscale:" line.

(** The filter as the specification words it. *)
Definition keep_unmarked (lines : list string) : list string :=
  filter (fun line => negb (marker line)) lines.

(** [xs] is [ys] with some elements left out, order kept. *)
Inductive subsequence {A : Type} : list A -> list A -> Prop :=
| sub_nil : subsequence [] []
| sub_keep x xs ys : subsequence xs ys -> subsequence (x :: xs) (x :: ys)
| sub_drop y xs ys : subsequence xs ys -> subsequence xs (y :: ys).

(** *** Observations of a run of [update_time.py] *)

(** The list [timed_lines] that [map(foo, ...)] builds. *)
Definition timed_lines (lines : list string) : list (option Z * string) :=
  match map_io foo lines [] with
  | Some (tls, _) => tls
  | None => []
  end.

(** The loop variables once the first [i] lines have been handled. *)
Definition state_at (lines : list string) (i : nat) : loop_state :=
  fold_left loop_body (firstn i (timed_lines lines)) init.

(** The running clock before line [i] (after line [i - 1]). *)
Definition clock_at (lines : list string) (i : nat) : Z :=
  current_time (state_at lines i).

(** The run ends normally, with these lines to write back, this final
    clock and this text printed. *)
Definition finishes (lines : list string) (out : list string) (clock : Z)
  (printed : stdout) : Prop :=
  run lines = Some (LoopState clock out, printed).

Definition output (lines : list string) : list string :=
  match run lines with
  | Some (st, _) => new_lines st
  | None => []
  end.

Definition printed (lines : list string) : stdout :=
  match run lines with
  | Some (_, out) => out
  | None => []
  end.

(** The diagnostic [foo] prints for [line]. *)
Definition error_message (line : string) : string :=
  ("ERROR: " ++ line ++ newline)%string.

(** What [foo] computes for one line, taken apart. *)
Definition time_of (line : string) : option Z :=
  match foo line [] with
  | Some ((t, _), _) => t
  | None => None
  end.

Definition diag_of (line : string) : stdout :=
  match foo line [] with
  | Some (_, d) => d
  | None => []
  end.

(** The pair [foo] returns for [line]. *)
Definition tag (line : string) : option Z * string := (time_of line, line).

(** The line the loop appends for [line] when the clock shows [c]. *)
Definition emit (c : Z) (tl : option Z * string) : string :=
  if truthy (fst tl) then
    Re.sub Re.start_re (replacement (c / 60) (c mod 60)) (snd tl)
  else snd tl.

(** [re.sub] reads a replacement without backslash literally. *)
Fixpoint no_backslash (s : string) : bool :=
  match s with
  | EmptyString => true
  | String c s' => negb (Ascii.eqb c "\") && no_backslash s'
  end.

(** A number written in decimal without padding: a lone zero, or
    digits the first of which is not a zero. *)
Definition plain_decimal (s : string) : bool :=
  is_number s && (String.eqb s "0" || negb (starts_with "0" s)).

(** Exactly two decimal digits. *)
Definition two_digits (s : string) : bool :=
  is_number s && (String.length s =? 2)%nat.

End Deck.

(* ================================================================= *)
(** ** The scan seen from the left, and decks as wholes *)

Module Trace.
Import Str Script Deck.

(** The seconds [foo] reports for a line, none counting as zero. *)
Definition seconds (line : string) : Z :=
  match time_of line with
  | Some t => t
  | None => 0%Z
  end.

(** The clock after a whole list of lines, started from zero. *)
Fixpoint total (lines : list string) : Z :=
  match lines with
  | [] => 0%Z
  | l :: ls => (seconds l + total ls)%Z
  end.

(** The lines the loop appends, first to last, when it starts with the
    clock at [c]. *)
Fixpoint emits (c : Z) (lines : list string) : list string :=
  match lines with
  | [] => []
  | l :: ls => emit c (tag l) :: emits (c + seconds l) ls
  end.

(** The seconds a deck amounts to: the durations of its timed
    annotations added up, the other lines counting for nothing. *)
Inductive deck_total : list string -> Z -> Prop :=
| total_nil : deck_total [] 0%Z
| total_timed line a ls t :
    timed line a -> deck_total ls t ->
    deck_total (line :: ls) (duration a + t)%Z
| total_other line ls t :
    ~ is_timed line -> deck_total ls t -> deck_total (line :: ls) t.

End Trace.

(* ================================================================= *)
(** ** The files the scripts read and write *)

Module Files.
Import Str Script Deck.
Local Open Scope string_scope.

Definition is_nl (c : ascii) : bool := Ascii.eqb c (ascii_of_nat 10).

(** [file.readlines()] on a file opened in text mode under POSIX: the
    content cut after every newline, each line keeping its newline. *)
Fixpoint readlines (content : string) : list string :=
  match content with
  | EmptyString => []
  | String c rest =>
      if is_nl c then String c EmptyString :: readlines rest
      else
        match readlines rest with
        | [] => [String c EmptyString]
        | l :: ls => String c l :: ls
        end
  end.

(** [file.writelines(lines)]: the strings one after the other, nothing
    added between them. *)
Fixpoint writelines (lines : list string) : string :=
  match lines with
  | [] => EmptyString
  | l :: ls => l ++ writelines ls
  end.

(** A line as [readlines] yields them: not empty, and without newline
    except as its last character. *)
Fixpoint is_line (s : string) : bool :=
  match s with
  | EmptyString => false
  | String c s' =>
      match s' with
      | EmptyString => true
      | String _ _ => negb (is_nl c) && is_line s'
      end
  end.

(** The last character is a newline. *)
Fixpoint terminated (s : string) : bool :=
  match s with
  | EmptyString => false
  | String c s' =>
      match s' with
      | EmptyString => is_nl c
      | String _ _ => terminated s'
      end
  end.

(** Lines that only the last of which may lack its newline. *)
Fixpoint file_lines (lines : list string) : bool :=
  match lines with
  | [] => true
  | l :: ls =>
      is_line l &&
      match ls with [] => true | _ :: _ => terminated l end &&
      file_lines ls
  end.

Fixpoint no_newline (s : string) : bool :=
  match s with
  | EmptyString => true
  | String c s' => negb (is_nl c) && no_newline s'
  end.

(** The files of the working directory: name to content. *)
Definition fs : Type := string -> option string.

(** [open(name)] then reading: a missing file raises [IOError]. *)
Definition read_file (name : string) (f : fs) : option string := f name.

(** [open(name, 'w')] then writing: the file is created or replaced. *)
Definition write_file (name content : string) (f : fs) : fs :=
  fun n => if String.eqb n name then Some content else f n.

(** [remove_transcript.py] from start to end. *)
Definition remove_transcript_main (f : fs) : option fs :=
  match read_file "slides.md" f with
  | Some content =>
      let lines := readlines content in
      let new_lines := remove_transcript lines in
      Some (write_file "codes.md" (writelines new_lines) f)
  | None => None
  end.

(** [update_time.py] from start to end, [out] being what the process
    has printed before. *)
Definition update_time_main (f : fs) (out : stdout) : option (fs * stdout) :=
  match read_file "slides.md" f with
  | Some content =>
      match update_time (readlines content) out with
      | Some (st, out') =>
          Some (write_file "slides.md" (writelines (new_lines st)) f, out')
      | None => None
      end
  | None => None
  end.

(** Two file systems holding the same files. *)
Definition same_files (f g : fs) : Prop := forall name, f name = g name.

(** A directory holding [slides.md] and nothing else. *)
Definition only_slides (content : string) : fs :=
  fun n => if String.eqb n "slides.md" then Some content else None.

End Files.

(* ================================================================= *)
(** ** Facts about strings and digits *)

Module StrFacts.
Import Str.
Local Open Scope string_scope.

Lemma append_nil_r (s : string) : s ++ "" = s.
Proof. induction s as [|c s IH]; simpl; [reflexivity | now rewrite IH]. Qed.

Lemma append_assoc (a b c : string) : (a ++ b) ++ c = a ++ (b ++ c).
Proof. induction a as [|x a IH]; simpl; [reflexivity | now rewrite IH]. Qed.

Lemma length_append (a b : string) :
  String.length (a ++ b) = (String.length a + String.length b)%nat.
Proof. induction a as [|x a IH]; simpl; [reflexivity | now rewrite IH]. Qed.

Lemma substring_append (a b : string) :
  String.substring 0 (String.length a) (a ++ b) = a.
Proof. induction a as [|x a IH]; simpl; [now destruct b | now rewrite IH]. Qed.

Lemma starts_with_iff (p s : string) :
  starts_with p s = true <-> exists rest, s = p ++ rest.
Proof.
  revert s; induction p as [|a p IH]; intros s; simpl.
  - split; [intros _; now exists s | reflexivity].
  - destruct s as [|b s].
    + split; [discriminate | intros [rest H]; discriminate].
    + rewrite andb_true_iff, Ascii.eqb_eq, IH. split.
      * intros [-> [rest ->]]. now exists rest.
      * intros [rest H]. injection H as -> ->. split; [reflexivity | now exists rest].
Qed.

(** *** Digits *)

Lemma all_digits_append (a b : string) :
  all_digits (a ++ b) = all_digits a && all_digits b.
Proof.
  induction a as [|c a IH]; simpl; [reflexivity|].
  now rewrite IH, andb_assoc.
Qed.

Lemma is_number_all_digits (s : string) :
  is_number s = true -> all_digits s = true.
Proof. destruct s; [discriminate | exact (fun H => H)]. Qed.

Lemma is_number_cons (c : ascii) (s : string) :
  is_number (String c s) = true <-> is_digit c = true /\ all_digits s = true.
Proof. simpl. apply andb_true_iff. Qed.

Lemma digit_val_range (c : ascii) :
  is_digit c = true -> (0 <= digit_val c < 10)%Z.
Proof.
  unfold is_digit, digit_val. intros H.
  apply andb_true_iff in H as [H1 H2].
  apply Nat.leb_le in H1, H2. lia.
Qed.

Lemma digit_chr_spec (d : Z) :
  (0 <= d < 10)%Z ->
  is_digit (digit_chr d) = true /\ digit_val (digit_chr d) = d.
Proof.
  intros H.
  assert (d = 0 \/ d = 1 \/ d = 2 \/ d = 3 \/ d = 4 \/ d = 5 \/ d = 6 \/
          d = 7 \/ d = 8 \/ d = 9)%Z as Hd by lia.
  repeat (destruct Hd as [-> | Hd]; [now split|]). subst d. now split.
Qed.

Lemma digits_value_from_append (a b : string) (acc : Z) :
  digits_value_from acc (a ++ b) = digits_value_from (digits_value_from acc a) b.
Proof. revert acc; induction a as [|c a IH]; intros acc; simpl; [reflexivity | apply IH]. Qed.

Lemma digits_value_from_nonneg (s : string) (acc : Z) :
  all_digits s = true -> (0 <= acc)%Z -> (0 <= digits_value_from acc s)%Z.
Proof.
  revert acc; induction s as [|c s IH]; intros acc Hs Hacc;
    cbn [digits_value_from all_digits] in *; [exact Hacc|].
  apply andb_true_iff in Hs as [Hc Hs]. apply IH; [exact Hs|].
  pose proof (digit_val_range c Hc). lia.
Qed.

Lemma digits_value_nonneg (s : string) :
  is_number s = true -> (0 <= digits_value s)%Z.
Proof.
  intros H. apply digits_value_from_nonneg; [now apply is_number_all_digits | lia].
Qed.

Lemma int_number (s : string) :
  is_number s = true -> int s = Some (digits_value s).
Proof. unfold int. now intros ->. Qed.

(** *** The [%d] format *)

(** What [digits_fuel] puts in front of the accumulator, when the fuel
    covers the number: the digits of [n], most significant first, the
    first of them not a zero unless [n] is zero. *)
Lemma digits_fuel_spec (f : nat) : forall (n : Z) (acc : string),
  (0 <= n < 10 ^ (Z.of_nat f + 1))%Z ->
  exists c ds,
    digits_fuel f n acc = String c ds ++ acc /\
    all_digits (String c ds) = true /\
    digits_value (String c ds) = n /\
    (n = 0%Z -> ds = "") /\
    (digit_val c = 0%Z -> n = 0%Z).
Proof.
  assert (Hone : forall n acc, (0 <= n < 10)%Z ->
            exists c ds,
              String (digit_chr (n mod 10)) acc = String c ds ++ acc /\
              all_digits (String c ds) = true /\
              digits_value (String c ds) = n /\
              (n = 0%Z -> ds = "") /\ (digit_val c = 0%Z -> n = 0%Z)).
  { intros n acc Hn. rewrite Z.mod_small by lia.
    destruct (digit_chr_spec n Hn) as [Hd Hv].
    exists (digit_chr n), "". unfold digits_value. simpl.
    rewrite Hd, Hv. repeat split; auto. }
  induction f as [|f IH]; intros n acc Hn.
  - simpl. apply Hone. simpl in Hn. lia.
  - cbn [digits_fuel]. destruct (Z.eqb_spec (n / 10) 0) as [Hq | Hq].
    + apply Hone. split; [lia|].
      apply Z.div_small_iff in Hq; lia.
    + assert (Hdiv : (0 <= n / 10 < 10 ^ (Z.of_nat f + 1))%Z).
      { split; [apply Z.div_pos; lia|].
        apply Z.div_lt_upper_bound; [lia|].
        replace (Z.of_nat (S f) + 1)%Z with (Z.succ (Z.of_nat f + 1)) in Hn by lia.
        rewrite Z.pow_succ_r in Hn by lia. lia. }
      destruct (IH (n / 10)%Z (String (digit_chr (n mod 10)) acc) Hdiv)
        as (c & ds & Heq & Hall & Hval & _ & Hz).
      assert (Hm : (0 <= n mod 10 < 10)%Z) by (apply Z.mod_pos_bound; lia).
      destruct (digit_chr_spec _ Hm) as [Hd Hv].
      exists c, (ds ++ String (digit_chr (n mod 10)) "").
      rewrite Heq. repeat split.
      * simpl. now rewrite append_assoc.
      * change (all_digits (String c ds ++ String (digit_chr (n mod 10)) "") = true).
        rewrite all_digits_append, Hall. simpl. now rewrite Hd.
      * change (digits_value_from 0 (String c ds ++ String (digit_chr (n mod 10)) "") = n).
        rewrite digits_value_from_append. fold (digits_value (String c ds)).
        rewrite Hval. cbn [digits_value_from]. rewrite Hv.
        pose proof (Z.div_mod n 10). lia.
      * intros ->. now rewrite Z.div_0_l in Hq by lia.
      * intros Hc. specialize (Hz Hc). contradiction.
Qed.

Lemma digits_of_spec (n : Z) :
  (0 <= n)%Z ->
  exists c ds,
    digits_of n = String c ds /\
    all_digits (String c ds) = true /\
    digits_value (String c ds) = n /\
    (n = 0%Z -> ds = "") /\
    (digit_val c = 0%Z -> n = 0%Z).
Proof.
  intros Hn. unfold digits_of.
  destruct (digits_fuel_spec (Z.to_nat (Z.log2 n)) n "") as (c & ds & Heq & H).
  - split; [exact Hn|].
    rewrite Z2Nat.id by apply Z.log2_nonneg.
    destruct (Z.eq_dec n 0) as [-> | Hnz]; [reflexivity|].
    pose proof (proj2 (Z.log2_spec n ltac:(lia))) as Hlt.
    eapply Z.lt_le_trans; [exact Hlt|].
    replace (Z.succ (Z.log2 n)) with (Z.log2 n + 1)%Z by lia.
    apply Z.pow_le_mono_l. lia.
  - exists c, ds. rewrite Heq, append_nil_r. now split.
Qed.

Lemma fmt_d_nonneg (n : Z) : (0 <= n)%Z -> fmt_d n = digits_of n.
Proof. intros H. unfold fmt_d. destruct (Z.ltb_spec n 0); [lia | reflexivity]. Qed.

Lemma fmt_d_number (n : Z) :
  (0 <= n)%Z -> is_number (fmt_d n) = true /\ digits_value (fmt_d n) = n.
Proof.
  intros H. rewrite fmt_d_nonneg by exact H.
  destruct (digits_of_spec n H) as (c & ds & -> & Hall & Hval & _). now split.
Qed.

(** Below one hundred, [%02d] gives exactly two digits. *)
Lemma fmt_02d_two_digits (n : Z) :
  (0 <= n < 100)%Z ->
  exists a b, fmt_02d n = String a (String b "") /\
              is_digit a = true /\ is_digit b = true /\
              (10 * digit_val a + digit_val b)%Z = n.
Proof.
  intros H.
  assert (exists k, n = Z.of_nat k /\ (k < 100)%nat) as (k & -> & Hk).
  { exists (Z.to_nat n). split; lia. }
  clear H.
  do 100 (destruct k as [|k];
          [eexists; eexists; repeat split; reflexivity|]).
  lia.
Qed.

End StrFacts.

(* ================================================================= *)
(** ** Facts about the matcher *)

Module ReFacts.
Import Str StrFacts Re.
Local Open Scope string_scope.
Local Arguments Ascii.eqb : simpl never.

Lemma rmatch_cat r1 r2 pos s cs k :
  rmatch (Cat r1 r2) pos s cs k =
  rmatch r1 pos s cs (fun pos' s' cs' => rmatch r2 pos' s' cs' k).
Proof. reflexivity. Qed.

Lemma rmatch_bol s cs k : rmatch Bol 0 s cs k = k 0%nat s cs.
Proof. reflexivity. Qed.

Lemma rmatch_bol_later pos s cs k : rmatch Bol (S pos) s cs k = None.
Proof. reflexivity. Qed.

Lemma rmatch_chr c pos s cs k :
  rmatch (Chr c) pos (String c s) cs k = k (S pos) s cs.
Proof. simpl. now rewrite Ascii.eqb_refl. Qed.

Lemma rmatch_chr_inv c pos s cs k x :
  rmatch (Chr c) pos s cs k = Some x ->
  exists s', s = String c s' /\ k (S pos) s' cs = Some x.
Proof.
  destruct s as [|c' s']; simpl; [discriminate|].
  destruct (Ascii.eqb_spec c c') as [<- | _]; [|discriminate].
  intros H. now exists s'.
Qed.

(** The greedy loop stops at the end of the run of digits when the
    continuation accepts there. *)
Lemma digits_star_max ds : forall rest pos cs k x,
  all_digits ds = true -> no_digit_ahead rest = true ->
  k (pos + String.length ds)%nat rest cs = Some x ->
  digits_star pos (ds ++ rest) cs k = Some x.
Proof.
  induction ds as [|c ds IH]; intros rest pos cs k x Hds Hrest Hk.
  - simpl in *. rewrite Nat.add_0_r in Hk.
    destruct rest as [|c r]; simpl in *; [exact Hk|].
    apply negb_true_iff in Hrest. now rewrite Hrest.
  - simpl in *. apply andb_true_iff in Hds as [Hc Hds]. rewrite Hc.
    rewrite Nat.add_succ_r in Hk.
    now rewrite (IH rest (S pos) cs k x).
Qed.

(** Whatever the loop returns, the continuation returned it after some
    run of digits. *)
Lemma digits_star_inv s : forall pos cs k x,
  digits_star pos s cs k = Some x ->
  exists ds rest,
    s = ds ++ rest /\ all_digits ds = true /\
    k (pos + String.length ds)%nat rest cs = Some x.
Proof.
  induction s as [|c s IH]; intros pos cs k x H.
  - exists "", "". simpl in *. now rewrite Nat.add_0_r.
  - simpl in H. destruct (is_digit c) eqn:Hc.
    + destruct (digits_star (S pos) s cs k) as [y|] eqn:Hs.
      * injection H as ->.
        destruct (IH _ _ _ _ Hs) as (ds & rest & -> & Hds & Hk).
        exists (String c ds), rest. simpl. rewrite Hc, Hds.
        now rewrite Nat.add_succ_r.
      * exists "", (String c s). simpl. now rewrite Nat.add_0_r.
    + exists "", (String c s). simpl. now rewrite Nat.add_0_r.
Qed.

Lemma rmatch_grp_digits i pos ds rest cs k x :
  is_number ds = true -> no_digit_ahead rest = true ->
  k (pos + String.length ds)%nat rest ((i, ds) :: cs) = Some x ->
  rmatch (Grp i Digits) pos (ds ++ rest) cs k = Some x.
Proof.
  intros Hds Hrest Hk. destruct ds as [|c ds]; [discriminate|].
  apply is_number_cons in Hds as [Hc Hds].
  cbn [rmatch append]. rewrite Hc.
  apply digits_star_max; [exact Hds | exact Hrest|].
  replace (S pos + String.length ds - pos)%nat
    with (String.length (String c ds)) by (cbn [String.length]; lia).
  change (String c (ds ++ rest)) with (String c ds ++ rest).
  rewrite substring_append.
  simpl in Hk. now rewrite Nat.add_succ_r in Hk.
Qed.

Lemma rmatch_grp_digits_inv i pos s cs k x :
  rmatch (Grp i Digits) pos s cs k = Some x ->
  exists ds rest,
    s = ds ++ rest /\ is_number ds = true /\
    k (pos + String.length ds)%nat rest ((i, ds) :: cs) = Some x.
Proof.
  cbn [rmatch]. destruct s as [|c s]; [discriminate|].
  destruct (is_digit c) eqn:Hc; [|discriminate].
  intros H. apply digits_star_inv in H as (ds & rest & -> & Hds & Hk).
  exists (String c ds), rest. split; [reflexivity|].
  split; [apply is_number_cons; now split|].
  replace (S pos + String.length ds - pos)%nat
    with (String.length (String c ds)) in Hk by (cbn [String.length]; lia).
  change (String c (ds ++ rest)) with (String c ds ++ rest) in Hk.
  rewrite substring_append in Hk.
  simpl. now rewrite Nat.add_succ_r.
Qed.

(** *** Patterns anchored by [^] *)

Lemma search_from_bol r s : forall pos,
  search_from (Cat Bol r) (S pos) s = None.
Proof. induction s as [|c s IH]; intros pos; simpl; [reflexivity | apply IH]. Qed.

Lemma search_bol r s :
  search (Cat Bol r) s =
  match rmatch r 0 s [] accept with
  | Some (e, cs) => Some (MatchObj 0 e cs)
  | None => None
  end.
Proof.
  unfold search. destruct s as [|c s]; cbn [search_from];
    rewrite rmatch_cat, rmatch_bol;
    destruct (rmatch r 0 _ [] accept) as [[e cs]|]; try reflexivity.
  apply search_from_bol.
Qed.

Lemma sub_from_skip r repl a : forall b pos adj,
  sub_from r repl pos (String.append a b) (String.length a) adj =
  sub_from r repl (pos + String.length a) b 0
    (match a with EmptyString => adj | String _ _ => true end).
Proof.
  induction a as [|c a IH]; intros b pos adj.
  - simpl. now rewrite Nat.add_0_r.
  - cbn [append String.length sub_from]. rewrite IH.
    rewrite Nat.add_succ_r. cbn [Nat.add]. now destruct a.
Qed.

Lemma sub_from_bol r repl s : forall pos adj,
  sub_from (Cat Bol r) repl (S pos) s 0 adj = s.
Proof.
  induction s as [|c s IH]; intros pos adj; cbn [sub_from];
    rewrite rmatch_cat, rmatch_bol_later; [reflexivity | now rewrite IH].
Qed.

(** *** The three patterns of [update_time.py] *)

Ltac forward :=
  repeat first
    [ rewrite rmatch_cat
    | rewrite rmatch_bol
    | rewrite rmatch_chr
    | eapply rmatch_grp_digits; [eassumption | first [reflexivity | eassumption] | ]
    | progress cbn [seq append] ].

(** Literal patterns: compare the input character by character. *)
Ltac by_characters :=
  simpl; try reflexivity;
  repeat
    (lazymatch goal with
     | |- context [Ascii.eqb ?a ?b] => destruct (Ascii.eqb a b)
     | |- context [match ?l with EmptyString => _ | String _ _ => _ end] =>
         is_var l; destruct l
     end; simpl; try reflexivity).

Lemma rmatch_timed m1 s1 m2 s2 rest :
  is_number m1 = true -> is_number s1 = true ->
  is_number m2 = true -> is_number s2 = true ->
  exists e,
    rmatch timed_re 0
      ("^ (" ++ m1 ++ ":" ++ s1 ++ ", " ++ m2 ++ ":" ++ s2 ++ ")" ++ rest)
      [] accept
    = Some (e, [(4, s2); (3, m2); (2, s1); (1, m1)]%nat).
Proof.
  intros H1 H2 H3 H4. eexists. unfold timed_re. forward. reflexivity.
Qed.

Lemma rmatch_timed_inv s x :
  rmatch timed_re 0 s [] accept = Some x ->
  exists m1 s1 m2 s2 rest,
    is_number m1 = true /\ is_number s1 = true /\
    is_number m2 = true /\ is_number s2 = true /\
    s = "^ (" ++ m1 ++ ":" ++ s1 ++ ", " ++ m2 ++ ":" ++ s2 ++ ")" ++ rest.
Proof.
  unfold timed_re. cbn [seq]. intros H.
  rewrite rmatch_cat, rmatch_bol in H.
  rewrite rmatch_cat in H; apply rmatch_chr_inv in H as (t & -> & H).
  rewrite rmatch_cat in H; apply rmatch_chr_inv in H as (t' & -> & H).
  rewrite rmatch_cat in H; apply rmatch_chr_inv in H as (t & -> & H).
  rewrite rmatch_cat in H;
    apply rmatch_grp_digits_inv in H as (m1 & t' & -> & Hm1 & H).
  rewrite rmatch_cat in H; apply rmatch_chr_inv in H as (t & -> & H).
  rewrite rmatch_cat in H;
    apply rmatch_grp_digits_inv in H as (s1 & t' & -> & Hs1 & H).
  rewrite rmatch_cat in H; apply rmatch_chr_inv in H as (t & -> & H).
  rewrite rmatch_cat in H; apply rmatch_chr_inv in H as (t' & -> & H).
  rewrite rmatch_cat in H;
    apply rmatch_grp_digits_inv in H as (m2 & t & -> & Hm2 & H).
  rewrite rmatch_cat in H; apply rmatch_chr_inv in H as (t' & -> & H).
  rewrite rmatch_cat in H;
    apply rmatch_grp_digits_inv in H as (s2 & t & -> & Hs2 & H).
  apply rmatch_chr_inv in H as (rest & -> & H).
  exists m1, s1, m2, s2, rest. repeat split; assumption.
Qed.

Lemma search_prefix s :
  search prefix_re s =
  if starts_with "^ (" s then Some (MatchObj 0 3 []) else None.
Proof.
  unfold prefix_re. cbn [seq]. rewrite search_bol. by_characters.
Qed.

Lemma sub_start repl m1 s1 tail :
  is_number m1 = true -> is_number s1 = true ->
  no_digit_ahead tail = true ->
  sub start_re repl ("^ (" ++ m1 ++ ":" ++ s1 ++ tail) = repl ++ tail.
Proof.
  intros H1 H2 Ht.
  set (a := " (" ++ m1 ++ ":" ++ s1).
  assert (Hline : "^ (" ++ m1 ++ ":" ++ s1 ++ tail = String "^" (a ++ tail)).
  { unfold a. cbn [append]. rewrite append_assoc. reflexivity. }
  assert (Hm : rmatch start_re 0 (String "^" (a ++ tail)) [] accept
               = Some (S (String.length a), [(2, s1); (1, m1)]%nat)).
  { rewrite <- Hline. unfold start_re. forward. unfold accept. do 2 f_equal.
    unfold a. cbn [append String.length]. rewrite length_append.
    cbn [String.length]. lia. }
  rewrite Hline. unfold sub. cbn [sub_from]. rewrite Hm.
  cbn [Nat.sub]. f_equal.
  rewrite sub_from_skip. unfold start_re. cbn [seq Nat.add].
  apply sub_from_bol.
Qed.

(** *** The pattern of [remove_transcript.py] *)

Lemma search_marker s :
  match search marker_re s with Some _ => true | None => false end =
  starts_with "^" s || starts_with "autoscale:" s.
Proof.
  unfold marker_re. rewrite search_bol. by_characters.
Qed.

End ReFacts.

(* ================================================================= *)
(** ** Facts about [update_time.py] *)

Module ScriptFacts.
Import Str StrFacts Re ReFacts Script Deck.

(** *** Which lines the four-field pattern matches *)

Lemma search_anchored r s :
  search (Cat Bol r) s =
  match rmatch (Cat Bol r) 0 s [] accept with
  | Some (e, cs) => Some (MatchObj 0 e cs)
  | None => None
  end.
Proof. exact (search_bol r s). Qed.

Lemma well_formed_fields a :
  well_formed a = true ->
  is_number (minutes1 a) = true /\ is_number (seconds1 a) = true /\
  is_number (minutes2 a) = true /\ is_number (seconds2 a) = true.
Proof.
  unfold well_formed. rewrite !andb_true_iff. tauto.
Qed.

Lemma search_timed a :
  well_formed a = true ->
  exists e,
    search timed_re (render a) =
    Some (MatchObj 0 e [(4, seconds2 a); (3, minutes2 a);
                        (2, seconds1 a); (1, minutes1 a)]%nat).
Proof.
  intros Hwf. apply well_formed_fields in Hwf as (H1 & H2 & H3 & H4).
  destruct (rmatch_timed (minutes1 a) (seconds1 a) (minutes2 a) (seconds2 a)
              (trailing a) H1 H2 H3 H4) as [e He].
  exists e. unfold render. unfold timed_re at 1. cbn [seq].
  rewrite search_anchored. unfold timed_re in He. cbn [seq] in He.
  now rewrite He.
Qed.

Lemma search_timed_inv line m :
  search timed_re line = Some m -> is_timed line.
Proof.
  unfold timed_re at 1. cbn [seq]. rewrite search_anchored.
  destruct (rmatch _ 0 line [] accept) as [x|] eqn:H; [|discriminate].
  intros _. apply rmatch_timed_inv in H
    as (m1 & s1 & m2 & s2 & rest & H1 & H2 & H3 & H4 & ->).
  exists (Annotation m1 s1 m2 s2 rest). split; [|reflexivity].
  unfold well_formed. simpl. now rewrite H1, H2, H3, H4.
Qed.

(** The pattern decides [is_timed]. *)
Lemma is_timed_search line :
  is_timed line <-> Re.search timed_re line <> None.
Proof.
  split.
  - intros (a & Hwf & ->). destruct (search_timed a Hwf) as [e ->]. discriminate.
  - destruct (search timed_re line) as [m|] eqn:H; [|congruence].
    intros _. now apply search_timed_inv with m.
Qed.

Lemma not_timed_search line :
  ~ is_timed line <-> Re.search timed_re line = None.
Proof.
  rewrite is_timed_search. destruct (search timed_re line) as [m|].
  - split; [intros H; exfalso; apply H; discriminate | discriminate].
  - split; [reflexivity | intros _ H; now apply H].
Qed.

(** *** [foo] on each kind of line *)

Lemma foo_timed a out :
  well_formed a = true ->
  foo (render a) out = Some ((Some (duration a), render a), out).
Proof.
  intros Hwf. unfold foo.
  destruct (search_timed a Hwf) as [e ->].
  apply well_formed_fields in Hwf as (_ & _ & H3 & H4).
  unfold bind, int_group, bind, lift, group. simpl.
  rewrite (int_number _ H3), (int_number _ H4). reflexivity.
Qed.

Lemma foo_not_timed line out :
  ~ is_timed line ->
  foo line out =
  Some ((None, line),
        if starts_with "^ (" line then out ++ [error_message line] else out).
Proof.
  intros H. apply not_timed_search in H. unfold foo. rewrite H.
  rewrite search_prefix. now destruct (starts_with "^ (" line).
Qed.

Lemma time_of_timed line a :
  timed line a -> time_of line = Some (duration a) /\ diag_of line = [].
Proof.
  intros [Hwf ->]. unfold time_of, diag_of. now rewrite foo_timed.
Qed.

Lemma time_of_not_timed line :
  ~ is_timed line ->
  time_of line = None /\
  diag_of line = if starts_with "^ (" line then [error_message line] else [].
Proof.
  intros H. unfold time_of, diag_of. rewrite foo_not_timed by exact H.
  now destruct (starts_with "^ (" line).
Qed.

Lemma is_timed_or_not line : is_timed line \/ ~ is_timed line.
Proof.
  destruct (search timed_re line) eqn:H.
  - left. eapply search_timed_inv; eauto.
  - right. now apply not_timed_search.
Qed.

(** [foo] never raises, returns its line, and only adds to what has
    been printed. *)
Lemma foo_eq line out :
  foo line out = Some ((time_of line, line), out ++ diag_of line).
Proof.
  destruct (is_timed_or_not line) as [(a & Ha) | Hn].
  - destruct (time_of_timed line a Ha) as [-> ->]. destruct Ha as [Hwf ->].
    rewrite foo_timed by exact Hwf. now rewrite app_nil_r.
  - destruct (time_of_not_timed line Hn) as [-> ->].
    rewrite foo_not_timed by exact Hn.
    destruct (starts_with "^ (" line); [reflexivity | now rewrite app_nil_r].
Qed.

Lemma time_of_nonneg line d : time_of line = Some d -> (0 <= d)%Z.
Proof.
  destruct (is_timed_or_not line) as [(a & Ha) | Hn].
  - destruct (time_of_timed line a Ha) as [-> _]. intros [= <-].
    destruct Ha as [Hwf _].
    apply well_formed_fields in Hwf as (_ & _ & H3 & H4).
    pose proof (digits_value_nonneg _ H3). pose proof (digits_value_nonneg _ H4).
    unfold duration. lia.
  - destruct (time_of_not_timed line Hn) as [-> _]. discriminate.
Qed.

Lemma map_io_foo lines : forall out,
  map_io foo lines out = Some (map tag lines, out ++ flat_map diag_of lines).
Proof.
  induction lines as [|l lines IH]; intros out; simpl.
  - unfold ret. now rewrite app_nil_r.
  - unfold bind. rewrite foo_eq, IH. unfold ret, tag. now rewrite app_assoc.
Qed.

Lemma timed_lines_map lines : timed_lines lines = map tag lines.
Proof. unfold timed_lines. now rewrite map_io_foo. Qed.

Lemma run_eq lines :
  run lines = Some (scan (map tag lines), flat_map diag_of lines).
Proof. unfold run, update_time, bind. now rewrite map_io_foo. Qed.

Lemma output_eq lines : output lines = new_lines (scan (map tag lines)).
Proof. unfold output. now rewrite run_eq. Qed.

Lemma printed_eq lines : printed lines = flat_map diag_of lines.
Proof. unfold printed. now rewrite run_eq. Qed.

Lemma state_at_eq lines i :
  state_at lines i = scan (map tag (firstn i lines)).
Proof. unfold state_at, scan. now rewrite timed_lines_map, firstn_map. Qed.

(** *** The loop *)

Lemma loop_body_eq st tl :
  loop_body st tl =
  LoopState
    (current_time st +
     (if truthy (fst tl) then match fst tl with Some t => t | None => 0 end
      else 0))%Z
    (new_lines st ++ [emit (current_time st) tl]).
Proof.
  destruct tl as [time line]. unfold loop_body, emit. simpl.
  destruct (truthy time); [reflexivity|]. now rewrite Z.add_0_r.
Qed.

(** The clock moves by the time of the line, zero included. *)
Lemma loop_body_clock st time line :
  current_time (loop_body st (time, line)) =
  (current_time st + match time with Some t => t | None => 0 end)%Z.
Proof.
  rewrite loop_body_eq. simpl. destruct time as [t|]; simpl; [|reflexivity].
  destruct (Z.eqb_spec t 0) as [-> | _]; reflexivity.
Qed.

Lemma fold_loop_new_lines tls : forall st,
  exists ls,
    new_lines (fold_left loop_body tls st) = new_lines st ++ ls /\
    List.length ls = List.length tls.
Proof.
  induction tls as [|tl tls IH]; intros st; simpl.
  - exists []. now rewrite app_nil_r.
  - destruct (IH (loop_body st tl)) as (ls & -> & Hlen).
    rewrite loop_body_eq. simpl. rewrite <- app_assoc.
    eexists. split; [reflexivity|]. simpl. now rewrite Hlen.
Qed.

Lemma scan_length tls : List.length (new_lines (scan tls)) = List.length tls.
Proof.
  unfold scan. destruct (fold_loop_new_lines tls init) as (ls & -> & Hlen).
  exact Hlen.
Qed.

Lemma firstn_snoc {A} (l : list A) : forall i x,
  nth_error l i = Some x -> firstn (S i) l = firstn i l ++ [x].
Proof.
  induction l as [|y l IH]; intros [|i] x H; simpl in *; try discriminate.
  - now injection H as ->.
  - f_equal. now apply IH.
Qed.

Lemma nth_split {A} (l : list A) : forall i x,
  nth_error l i = Some x ->
  l = firstn i l ++ x :: skipn (S i) l /\ List.length (firstn i l) = i.
Proof.
  induction l as [|y l IH]; intros [|i] x H; simpl in *; try discriminate.
  - injection H as ->. now split.
  - destruct (IH i x H) as [Heq Hlen]. split; [now f_equal | now f_equal].
Qed.

(** Line [i] of the result is what the loop appended at its turn [i]. *)
Lemma scan_nth tls i tl :
  nth_error tls i = Some tl ->
  nth_error (new_lines (scan tls)) i =
  Some (emit (current_time (scan (firstn i tls))) tl).
Proof.
  intros H. destruct (nth_split tls i tl H) as [Heq Hlen].
  remember (firstn i tls) as pre eqn:Hpre.
  remember (skipn (S i) tls) as rest eqn:Hrest.
  clear Hpre Hrest H. subst tls.
  unfold scan at 1. rewrite fold_left_app. cbn [fold_left].
  fold (scan pre).
  destruct (fold_loop_new_lines rest (loop_body (scan pre) tl)) as (ls & -> & _).
  rewrite loop_body_eq. cbn [new_lines]. rewrite <- !app_assoc.
  rewrite nth_error_app2; rewrite scan_length, Hlen; [|lia].
  now rewrite Nat.sub_diag.
Qed.

Lemma scan_snoc tls tl : scan (tls ++ [tl]) = loop_body (scan tls) tl.
Proof. unfold scan. now rewrite fold_left_app. Qed.

Lemma scan_clock_nonneg lines : (0 <= current_time (scan (map tag lines)))%Z.
Proof.
  induction lines as [|l lines IH] using rev_ind; [simpl; lia|].
  rewrite map_app. simpl. rewrite scan_snoc. unfold tag at 2.
  rewrite loop_body_clock. destruct (time_of l) as [d|] eqn:Hd; [|lia].
  apply time_of_nonneg in Hd. lia.
Qed.

(** *** The observations, line by line *)

Lemma clock_at_nonneg lines i : (0 <= clock_at lines i)%Z.
Proof. unfold clock_at. rewrite state_at_eq. apply scan_clock_nonneg. Qed.

Lemma clock_at_step lines i line :
  nth_error lines i = Some line ->
  clock_at lines (S i) =
  (clock_at lines i + match time_of line with Some t => t | None => 0 end)%Z.
Proof.
  intros H. unfold clock_at. rewrite !state_at_eq.
  rewrite (firstn_snoc lines i line H), map_app. simpl.
  rewrite scan_snoc. apply loop_body_clock.
Qed.

Lemma output_nth lines i line :
  nth_error lines i = Some line ->
  nth_error (output lines) i = Some (emit (clock_at lines i) (tag line)).
Proof.
  intros H. rewrite output_eq.
  rewrite (scan_nth (map tag lines) i (tag line)).
  - unfold clock_at. now rewrite state_at_eq, firstn_map.
  - now rewrite nth_error_map, H.
Qed.

Lemma printed_split lines i line :
  nth_error lines i = Some line ->
  printed lines =
  printed (firstn i lines) ++ diag_of line ++ printed (skipn (S i) lines).
Proof.
  intros H. destruct (nth_split lines i line H) as [Heq _].
  rewrite !printed_eq. rewrite Heq at 1.
  rewrite flat_map_app. reflexivity.
Qed.

Lemma run_finishes lines :
  finishes lines (output lines) (clock_at lines (List.length lines)) (printed lines).
Proof.
  unfold finishes. rewrite output_eq, printed_eq. unfold clock_at.
  rewrite state_at_eq, firstn_all, run_eq.
  now destruct (scan (map tag lines)).
Qed.

(** *** The rewritten start time *)

Lemma fmt_d_plain n :
  (0 <= n)%Z -> plain_decimal (fmt_d n) = true /\ digits_value (fmt_d n) = n.
Proof.
  intros Hn. destruct (fmt_d_number n Hn) as [Hnum Hval].
  split; [|exact Hval]. unfold plain_decimal. rewrite Hnum. simpl.
  destruct (Z.eq_dec n 0) as [-> | Hnz]; [reflexivity|].
  rewrite fmt_d_nonneg by exact Hn.
  destruct (digits_of_spec n Hn) as (c & ds & -> & _ & _ & _ & Hc).
  apply orb_true_iff. right.
  change (negb (Ascii.eqb "0" c && starts_with "" ds) = true).
  destruct (Ascii.eqb_spec "0" c) as [<- | _]; [|reflexivity].
  exfalso. apply Hnz, Hc. reflexivity.
Qed.

Lemma fmt_02d_two n :
  (0 <= n < 100)%Z -> two_digits (fmt_02d n) = true /\ digits_value (fmt_02d n) = n.
Proof.
  intros Hn. destruct (fmt_02d_two_digits n Hn) as (a & b & -> & Ha & Hb & Hv).
  unfold two_digits, digits_value. cbn [is_number all_digits digits_value_from].
  rewrite Ha, Hb. split; [reflexivity | lia].
Qed.

(** The replacement text the loop builds is one [re.sub] inserts as
    it is. *)
Lemma no_backslash_append a b :
  no_backslash (a ++ b) = no_backslash a && no_backslash b.
Proof.
  induction a as [|x a IH]; simpl; [reflexivity|].
  now rewrite IH, andb_assoc.
Qed.

Lemma digits_no_backslash s : all_digits s = true -> no_backslash s = true.
Proof.
  induction s as [|c s IH]; simpl; [reflexivity|].
  intros H. apply andb_true_iff in H as [Hc Hs]. rewrite (IH Hs), andb_true_r.
  destruct (Ascii.eqb_spec c "\") as [-> | _]; [discriminate Hc | reflexivity].
Qed.

Lemma replacement_no_backslash c :
  (0 <= c)%Z -> no_backslash (replacement (c / 60) (c mod 60)) = true.
Proof.
  intros Hc.
  assert (Hmin : (0 <= c / 60)%Z) by (apply Z.div_pos; lia).
  assert (Hsec : (0 <= c mod 60 < 100)%Z)
    by (pose proof (Z.mod_pos_bound c 60); lia).
  destruct (fmt_d_number _ Hmin) as [Hm _].
  destruct (fmt_02d_two _ Hsec) as [Hs _].
  apply andb_true_iff in Hs as [Hs _].
  apply is_number_all_digits, digits_no_backslash in Hm, Hs.
  unfold replacement.
  change ("^ (" ++ fmt_d (c / 60) ++ ":" ++ fmt_02d (c mod 60))%string
    with ("^ (" ++ (fmt_d (c / 60) ++ (":" ++ fmt_02d (c mod 60))))%string.
  rewrite !no_backslash_append, Hm, Hs. reflexivity.
Qed.

(** The annotation whose start time shows the clock [c]. *)
Lemma sub_start_render a c :
  well_formed a = true ->
  sub start_re (replacement (c / 60) (c mod 60)) (render a) =
  render (Annotation (fmt_d (c / 60)) (fmt_02d (c mod 60))
            (minutes2 a) (seconds2 a) (trailing a)).
Proof.
  intros Hwf. apply well_formed_fields in Hwf as (H1 & H2 & _ & _).
  unfold render at 1.
  rewrite (sub_start _ (minutes1 a) (seconds1 a)) by (assumption || reflexivity).
  unfold replacement, render. cbn [append minutes1 seconds1 minutes2 seconds2 trailing].
  rewrite append_assoc. reflexivity.
Qed.

Lemma output_timed lines i line a :
  nth_error lines i = Some line -> timed line a -> duration a <> 0%Z ->
  nth_error (output lines) i =
  Some (render (Annotation (fmt_d (clock_at lines i / 60))
                  (fmt_02d (clock_at lines i mod 60))
                  (minutes2 a) (seconds2 a) (trailing a))).
Proof.
  intros Hi Ha Hd. rewrite (output_nth lines i line Hi).
  destruct (time_of_timed line a Ha) as [Ht _]. destruct Ha as [Hwf ->].
  unfold emit, tag. cbn [fst snd]. rewrite Ht. cbn [truthy].
  destruct (Z.eqb_spec (duration a) 0) as [E | _]; [contradiction|].
  cbn [negb]. now rewrite sub_start_render.
Qed.

Lemma output_untouched lines i line :
  nth_error lines i = Some line ->
  truthy (time_of line) = false ->
  nth_error (output lines) i = Some line.
Proof.
  intros Hi Ht. rewrite (output_nth lines i line Hi).
  unfold emit, tag. cbn [fst snd]. now rewrite Ht.
Qed.

(** *** The filter *)

Lemma filter_subsequence {A} (f : A -> bool) (l : list A) :
  subsequence (filter f l) l.
Proof.
  induction l as [|x l IH]; simpl; [constructor|].
  destruct (f x); now constructor.
Qed.

Lemma remove_transcript_eq lines : remove_transcript lines = keep_unmarked lines.
Proof.
  unfold remove_transcript, keep_unmarked, marker.
  apply filter_ext. intros line. now rewrite search_marker.
Qed.

End ScriptFacts.

(* ================================================================= *)
(** ** Facts about the scan as a whole *)

Module TraceFacts.
Import Str StrFacts Re ReFacts Script Deck ScriptFacts Trace.
Local Open Scope Z_scope.

Lemma seconds_nonneg line : 0 <= seconds line.
Proof.
  unfold seconds. destruct (time_of line) as [d|] eqn:H; [|lia].
  now apply time_of_nonneg in H.
Qed.

Lemma total_nonneg lines : 0 <= total lines.
Proof.
  induction lines as [|l ls IH]; simpl; [lia|].
  pose proof (seconds_nonneg l). lia.
Qed.

Lemma total_app a b : total (a ++ b) = total a + total b.
Proof. induction a as [|l a IH]; simpl; [reflexivity | rewrite IH; lia]. Qed.

Lemma loop_body_tag st line :
  loop_body st (tag line) =
  LoopState (current_time st + seconds line)
    (new_lines st ++ [emit (current_time st) (tag line)]).
Proof.
  rewrite loop_body_eq. unfold tag at 1 2, seconds. cbn [fst].
  destruct (time_of line) as [t|]; cbn [truthy]; [|reflexivity].
  destruct (Z.eqb_spec t 0) as [-> | _]; reflexivity.
Qed.

Lemma fold_emits ls : forall st,
  fold_left loop_body (map tag ls) st =
  LoopState (current_time st + total ls)
    (new_lines st ++ emits (current_time st) ls).
Proof.
  induction ls as [|l ls IH]; intros st; cbn [map fold_left total emits].
  - rewrite Z.add_0_r, app_nil_r. now destruct st.
  - rewrite IH, loop_body_tag. cbn [current_time new_lines].
    rewrite <- app_assoc. f_equal. lia.
Qed.

Lemma scan_emits lines :
  scan (map tag lines) = LoopState (total lines) (emits 0 lines).
Proof. unfold scan. now rewrite fold_emits. Qed.

Lemma output_emits lines : output lines = emits 0 lines.
Proof. now rewrite output_eq, scan_emits. Qed.

Lemma clock_at_total lines i : clock_at lines i = total (firstn i lines).
Proof. unfold clock_at. now rewrite state_at_eq, scan_emits. Qed.

Lemma run_emits lines :
  run lines =
  Some (LoopState (total lines) (emits 0 lines), flat_map diag_of lines).
Proof. now rewrite run_eq, scan_emits. Qed.

Lemma emits_length ls : forall c, List.length (emits c ls) = List.length ls.
Proof. induction ls as [|l ls IH]; intros c; simpl; [reflexivity | now rewrite IH]. Qed.

Lemma emits_app a : forall b c,
  emits c (a ++ b) = emits c a ++ emits (c + total a) b.
Proof.
  induction a as [|l a IH]; intros b c; cbn [app emits total].
  - now rewrite Z.add_0_r.
  - rewrite IH. do 3 f_equal. lia.
Qed.

(** *** One line *)

Lemma emit_same c line :
  truthy (time_of line) = false -> emit c (tag line) = line.
Proof. intros H. unfold emit, tag. cbn [fst snd]. now rewrite H. Qed.

Lemma emit_not_timed c line : ~ is_timed line -> emit c (tag line) = line.
Proof.
  intros H. apply emit_same. now destruct (time_of_not_timed line H) as [-> _].
Qed.

Lemma emit_timed c line a :
  timed line a -> duration a <> 0 ->
  emit c (tag line) =
  render (Annotation (fmt_d (c / 60)) (fmt_02d (c mod 60))
            (minutes2 a) (seconds2 a) (trailing a)).
Proof.
  intros Ha Hd. destruct (time_of_timed line a Ha) as [Ht _].
  destruct Ha as [Hwf ->]. unfold emit, tag. cbn [fst snd]. rewrite Ht.
  cbn [truthy]. destruct (Z.eqb_spec (duration a) 0) as [E | _]; [contradiction|].
  cbn [negb]. now apply sub_start_render.
Qed.

(** The annotation written for the clock [c] is well formed. *)
Lemma rewritten_well_formed c a :
  0 <= c -> well_formed a = true ->
  well_formed (Annotation (fmt_d (c / 60)) (fmt_02d (c mod 60))
                 (minutes2 a) (seconds2 a) (trailing a)) = true.
Proof.
  intros Hc Hwf. apply well_formed_fields in Hwf as (_ & _ & H3 & H4).
  assert (Hmin : 0 <= c / 60) by (apply Z.div_pos; lia).
  assert (Hsec : 0 <= c mod 60 < 100)
    by (pose proof (Z.mod_pos_bound c 60); lia).
  destruct (fmt_d_number _ Hmin) as [Hm _].
  destruct (fmt_02d_two _ Hsec) as [Hs _].
  apply andb_true_iff in Hs as [Hs _].
  unfold well_formed. cbn [minutes1 seconds1 minutes2 seconds2].
  now rewrite Hm, Hs, H3, H4.
Qed.

(** What the loop writes for a line is a line it would write again,
    with the same seconds and the same diagnostic. *)
Lemma emit_fixed c line :
  0 <= c ->
  let o := emit c (tag line) in
  time_of o = time_of line /\ diag_of o = diag_of line /\
  emit c (tag o) = o.
Proof.
  intros Hc o. subst o.
  destruct (is_timed_or_not line) as [(a & Ha) | Hn].
  - destruct (Z.eq_dec (duration a) 0) as [Hz | Hnz].
    + destruct (time_of_timed line a Ha) as [Ht _]. rewrite Hz in Ht.
      assert (E : emit c (tag line) = line) by (apply emit_same; now rewrite Ht).
      rewrite E. repeat split. exact E.
    + rewrite (emit_timed c line a Ha Hnz).
      set (a' := Annotation (fmt_d (c / 60)) (fmt_02d (c mod 60))
                   (minutes2 a) (seconds2 a) (trailing a)).
      assert (Ha' : timed (render a') a').
      { split; [|reflexivity]. apply rewritten_well_formed; [exact Hc|].
        now destruct Ha. }
      destruct (time_of_timed _ _ Ha') as [Ht' Hd'].
      destruct (time_of_timed _ _ Ha) as [Ht Hd].
      rewrite Ht', Hd', Ht, Hd. repeat split.
      now rewrite (emit_timed c _ a' Ha').
  - rewrite (emit_not_timed c line Hn). repeat split.
    now apply emit_not_timed.
Qed.

Lemma seconds_emit c line : 0 <= c -> seconds (emit c (tag line)) = seconds line.
Proof.
  intros Hc. unfold seconds. now destruct (emit_fixed c line Hc) as [-> _].
Qed.

Lemma emits_fixed ls : forall c,
  0 <= c ->
  emits c (emits c ls) = emits c ls /\
  total (emits c ls) = total ls /\
  flat_map diag_of (emits c ls) = flat_map diag_of ls.
Proof.
  induction ls as [|l ls IH]; intros c Hc; cbn [emits total flat_map];
    [now repeat split|].
  destruct (emit_fixed c l Hc) as (_ & Hd & He).
  rewrite (seconds_emit c l Hc), He, Hd.
  destruct (IH (c + seconds l)) as (-> & -> & ->);
    [pose proof (seconds_nonneg l); lia|].
  now repeat split.
Qed.

(** *** Markers *)

Lemma marker_timed line : is_timed line -> marker line = true.
Proof. intros (a & _ & ->). reflexivity. Qed.

Lemma emit_marker c line :
  marker (emit c (tag line)) = marker line /\
  (marker line = false -> emit c (tag line) = line).
Proof.
  destruct (is_timed_or_not line) as [(a & Ha) | Hn].
  - rewrite (marker_timed line) by now exists a.
    split; [|discriminate].
    destruct (Z.eq_dec (duration a) 0) as [Hz | Hnz].
    + destruct (time_of_timed line a Ha) as [Ht _]. rewrite Hz in Ht.
      rewrite emit_same by now rewrite Ht.
      apply marker_timed. now exists a.
    + now rewrite (emit_timed c line a Ha Hnz).
  - rewrite (emit_not_timed c line Hn). now split.
Qed.

Lemma remove_emits ls : forall c,
  remove_transcript (emits c ls) = remove_transcript ls.
Proof.
  induction ls as [|l ls IH]; intros c; [reflexivity|].
  rewrite !remove_transcript_eq in *. cbn [emits keep_unmarked filter].
  destruct (emit_marker c l) as [Hm Hsame]. rewrite Hm.
  specialize (IH (c + seconds l)). rewrite !remove_transcript_eq in IH.
  unfold keep_unmarked in IH. rewrite IH.
  destruct (marker l) eqn:E; cbn [negb]; [reflexivity|].
  now rewrite Hsame.
Qed.

Lemma timed_starts line : is_timed line -> starts_with "^ (" line = true.
Proof. intros (a & _ & ->). reflexivity. Qed.

Lemma unmarked_not_timed line : marker line = false -> ~ is_timed line.
Proof. intros H Ht. apply marker_timed in Ht. congruence. Qed.

Lemma unmarked_no_prefix line :
  marker line = false -> starts_with "^ (" line = false.
Proof.
  unfold marker. intros H. apply orb_false_iff in H as [H _].
  destruct line as [|c line]; [reflexivity|]. cbn [starts_with] in *.
  rewrite andb_true_r in H. now rewrite H.
Qed.

(** *** Lines that are nothing to the script *)

Lemma no_prefix_not_timed line :
  starts_with "^ (" line = false -> ~ is_timed line.
Proof.
  intros H (a & _ & ->). unfold render in H. cbn in H. discriminate.
Qed.

Lemma no_prefix_silent line :
  starts_with "^ (" line = false ->
  seconds line = 0 /\ diag_of line = [] /\ forall c, emit c (tag line) = line.
Proof.
  intros H. pose proof (no_prefix_not_timed line H) as Hn.
  destruct (time_of_not_timed line Hn) as [Ht Hd]. rewrite H in Hd.
  unfold seconds. rewrite Ht. repeat split; [exact Hd|].
  intros c. now apply emit_not_timed.
Qed.

Lemma plain_deck ls :
  Forall (fun l => starts_with "^ (" l = false) ls ->
  total ls = 0 /\ flat_map diag_of ls = [] /\ forall c, emits c ls = ls.
Proof.
  induction 1 as [|l ls Hl _ (Ht & Hd & He)]; cbn [total flat_map emits];
    [now repeat split|].
  destruct (no_prefix_silent l Hl) as (Hs & Hdl & Hel).
  rewrite Hs, Ht, Hd, Hdl. repeat split.
  intros c. now rewrite Hel, Z.add_0_r, He.
Qed.

Lemma plain_deck_unchanged_lemma lines :
  Forall (fun l => starts_with "^ (" l = false) lines ->
  finishes lines lines 0 [].
Proof.
  intros H. destruct (plain_deck lines H) as (Ht & Hd & He).
  unfold finishes. now rewrite run_emits, Ht, Hd, He.
Qed.

(** *** Diagnostics *)

Lemma diag_of_In line e :
  In e (diag_of line) <-> malformed line /\ e = error_message line.
Proof.
  destruct (is_timed_or_not line) as [(a & Ha) | Hn].
  - destruct (time_of_timed line a Ha) as [_ ->]. split; [intros []|].
    intros [[_ Hnot] _]. exfalso. apply Hnot. now exists a.
  - destruct (time_of_not_timed line Hn) as [_ ->]. unfold malformed.
    destruct (starts_with "^ (" line); simpl.
    + split; [intros [<- | []]; now repeat split | intros [_ ->]; now left].
    + split; [intros [] | intros [[H _] _]; discriminate].
Qed.

(** *** The seconds of a deck *)

Lemma deck_total_eq lines t : deck_total lines t -> total lines = t.
Proof.
  induction 1 as [|line a ls t Ha _ IH | line ls t Hn _ IH]; cbn [total].
  - reflexivity.
  - unfold seconds. destruct (time_of_timed line a Ha) as [-> _]. now rewrite IH.
  - unfold seconds. destruct (time_of_not_timed line Hn) as [-> _]. now rewrite IH.
Qed.

Lemma deck_total_exists lines : deck_total lines (total lines).
Proof.
  induction lines as [|l ls IH]; cbn [total]; [constructor|].
  destruct (is_timed_or_not l) as [(a & Ha) | Hn]; unfold seconds.
  - destruct (time_of_timed l a Ha) as [-> _]. now apply total_timed.
  - destruct (time_of_not_timed l Hn) as [-> _]. now apply total_other.
Qed.

End TraceFacts.

(* ================================================================= *)
(** ** Facts about reading and writing the files *)

Module FilesFacts.
Import Str StrFacts Re ReFacts Script Deck ScriptFacts Trace TraceFacts Files.
Local Open Scope string_scope.

Lemma writelines_readlines content : writelines (readlines content) = content.
Proof.
  induction content as [|c rest IH]; cbn [readlines]; [reflexivity|].
  destruct (is_nl c); [cbn [writelines append]; now rewrite IH|].
  destruct (readlines rest) as [|l ls]; cbn [writelines append] in *.
  - now rewrite <- IH.
  - now rewrite IH.
Qed.

Lemma is_line_nonempty l : is_line l = true -> l <> "".
Proof. now destruct l. Qed.

Lemma is_line_cons c l :
  is_nl c = false -> is_line l = true -> is_line (String c l) = true.
Proof. intros Hc Hl. destruct l; [discriminate|]. cbn [is_line] in *. now rewrite Hc, Hl. Qed.

Lemma terminated_cons c l : l <> "" -> terminated (String c l) = terminated l.
Proof. now destruct l. Qed.

Lemma readlines_file_lines content : file_lines (readlines content) = true.
Proof.
  induction content as [|c rest IH]; cbn [readlines]; [reflexivity|].
  destruct (is_nl c) eqn:Hc.
  - cbn [file_lines is_line terminated]. rewrite Hc, IH. now destruct (readlines rest).
  - destruct (readlines rest) as [|l ls]; [reflexivity|].
    cbn [file_lines] in *.
    apply andb_true_iff in IH as [IH Hls]. apply andb_true_iff in IH as [Hl Ht].
    rewrite (is_line_cons c l Hc Hl), Hls.
    rewrite (terminated_cons c l (is_line_nonempty l Hl)), Ht. reflexivity.
Qed.

Lemma readlines_terminated l : forall rest,
  is_line l = true -> terminated l = true ->
  readlines (l ++ rest) = l :: readlines rest.
Proof.
  induction l as [|c l IH]; intros rest Hl Ht; [discriminate|].
  destruct l as [|c' l].
  - cbn [terminated] in Ht. cbn [append readlines]. now rewrite Ht.
  - cbn [is_line] in Hl. apply andb_true_iff in Hl as [Hc Hl].
    apply negb_true_iff in Hc. cbn [terminated] in Ht.
    assert (E : readlines (String c (String c' l) ++ rest) =
                match readlines (String c' l ++ rest) with
                | [] => [String c ""]
                | l0 :: ls => String c l0 :: ls
                end).
    { change (readlines (String c (String c' l) ++ rest))
        with (if is_nl c then String c "" :: readlines (String c' l ++ rest)
              else match readlines (String c' l ++ rest) with
                   | [] => [String c ""]
                   | l0 :: ls => String c l0 :: ls
                   end).
      now rewrite Hc. }
    rewrite E, (IH rest Hl Ht). reflexivity.
Qed.

Lemma readlines_last l : is_line l = true -> readlines l = [l].
Proof.
  induction l as [|c l IH]; intros Hl; [discriminate|].
  destruct l as [|c' l].
  - cbn [readlines]. now destruct (is_nl c).
  - cbn [is_line] in Hl. apply andb_true_iff in Hl as [Hc Hl].
    apply negb_true_iff in Hc.
    assert (E : readlines (String c (String c' l)) =
                match readlines (String c' l) with
                | [] => [String c ""]
                | l0 :: ls => String c l0 :: ls
                end).
    { change (readlines (String c (String c' l)))
        with (if is_nl c then String c "" :: readlines (String c' l)
              else match readlines (String c' l) with
                   | [] => [String c ""]
                   | l0 :: ls => String c l0 :: ls
                   end).
      now rewrite Hc. }
    rewrite E, (IH Hl). reflexivity.
Qed.

Lemma readlines_writelines lines :
  file_lines lines = true -> readlines (writelines lines) = lines.
Proof.
  induction lines as [|l ls IH]; intros H; [reflexivity|].
  cbn [file_lines] in H.
  apply andb_true_iff in H as [H Hls]. apply andb_true_iff in H as [Hl Ht].
  cbn [writelines]. destruct ls as [|l' ls].
  - cbn [writelines]. rewrite append_nil_r. now apply readlines_last.
  - rewrite (readlines_terminated l _ Hl Ht). now rewrite (IH Hls).
Qed.

(** *** Rewriting a start time keeps the shape of the line *)

Lemma terminated_append x : forall t,
  no_newline x = true -> terminated (x ++ t) = terminated t.
Proof.
  induction x as [|c x IH]; intros t H; [reflexivity|].
  cbn [no_newline] in H. apply andb_true_iff in H as [Hc Hx].
  apply negb_true_iff in Hc. specialize (IH t Hx).
  cbn [append]. destruct (x ++ t) as [|c' r] eqn:E.
  - cbn [terminated]. rewrite Hc. destruct x; [|discriminate E].
    cbn [append] in E. now subst t.
  - cbn [terminated]. exact IH.
Qed.

Lemma is_line_append x : forall t,
  no_newline x = true -> x <> "" ->
  is_line (x ++ t) = match t with "" => true | String _ _ => is_line t end.
Proof.
  induction x as [|c x IH]; intros t H Hne; [congruence|].
  cbn [no_newline] in H. apply andb_true_iff in H as [Hc Hx].
  destruct x as [|c' x].
  - cbn [append is_line]. destruct t; [reflexivity|]. now rewrite Hc.
  - specialize (IH t Hx ltac:(discriminate)).
    change (String c (String c' x) ++ t) with (String c (String c' (x ++ t))).
    cbn [is_line]. fold is_line. rewrite Hc. cbn [andb].
    exact IH.
Qed.

Lemma digits_no_newline s : all_digits s = true -> no_newline s = true.
Proof.
  induction s as [|c s IH]; cbn [all_digits no_newline]; [reflexivity|].
  intros H. apply andb_true_iff in H as [Hc Hs]. rewrite (IH Hs), andb_true_r.
  unfold is_nl. destruct (Ascii.eqb_spec c (ascii_of_nat 10)) as [-> | _];
    [discriminate Hc | reflexivity].
Qed.

Lemma no_newline_append a b :
  no_newline (a ++ b) = no_newline a && no_newline b.
Proof.
  induction a as [|x a IH]; cbn [append no_newline]; [reflexivity|].
  now rewrite IH, andb_assoc.
Qed.

(** The text of a timed annotation up to the comma, and from it on. *)
Lemma render_split a :
  render a =
  ("^ (" ++ minutes1 a ++ ":" ++ seconds1 a) ++
  (", " ++ minutes2 a ++ ":" ++ seconds2 a ++ ")" ++ trailing a).
Proof. unfold render. cbn [append]. now rewrite append_assoc. Qed.

Lemma start_no_newline m s :
  is_number m = true -> is_number s = true ->
  no_newline ("^ (" ++ m ++ ":" ++ s) = true /\ "^ (" ++ m ++ ":" ++ s <> "".
Proof.
  intros Hm Hs. split; [|discriminate].
  apply is_number_all_digits, digits_no_newline in Hm, Hs.
  change ("^ (" ++ m ++ ":" ++ s) with ("^ (" ++ (m ++ (":" ++ s))).
  rewrite !no_newline_append, Hm, Hs. reflexivity.
Qed.

Lemma emit_shape c line :
  (0 <= c)%Z ->
  is_line (emit c (tag line)) = is_line line /\
  terminated (emit c (tag line)) = terminated line.
Proof.
  intros Hc. destruct (is_timed_or_not line) as [(a & Ha) | Hn];
    [|now rewrite (emit_not_timed c line Hn)].
  destruct (Z.eq_dec (duration a) 0) as [Hz | Hnz].
  - destruct (time_of_timed line a Ha) as [Ht _]. rewrite Hz in Ht.
    now rewrite emit_same by now rewrite Ht.
  - rewrite (emit_timed c line a Ha Hnz). destruct Ha as [Hwf ->].
    pose proof (rewritten_well_formed c a Hc Hwf) as Hwf'.
    apply well_formed_fields in Hwf as (H1 & H2 & _ & _).
    apply well_formed_fields in Hwf' as (H1' & H2' & _ & _).
    cbn [minutes1 seconds1] in H1', H2'.
    destruct (start_no_newline _ _ H1 H2) as [Hn Hne].
    destruct (start_no_newline _ _ H1' H2') as [Hn' Hne'].
    rewrite !render_split. cbn [minutes1 seconds1 minutes2 seconds2 trailing].
    rewrite (is_line_append _ _ Hn Hne), (is_line_append _ _ Hn' Hne').
    rewrite (terminated_append _ _ Hn), (terminated_append _ _ Hn').
    now split.
Qed.

Lemma emits_file_lines ls : forall c,
  (0 <= c)%Z -> file_lines (emits c ls) = file_lines ls.
Proof.
  induction ls as [|l ls IH]; intros c Hc; [reflexivity|].
  cbn [emits file_lines]. destruct (emit_shape c l Hc) as [-> ->].
  rewrite IH by (pose proof (seconds_nonneg l); lia).
  now destruct ls.
Qed.

(** *** The scripts on a directory *)

Lemma update_time_eq lines out :
  update_time lines out =
  Some (LoopState (total lines) (emits 0 lines),
        (out ++ flat_map diag_of lines)%list).
Proof.
  unfold update_time, bind, ret. now rewrite map_io_foo, scan_emits.
Qed.

Lemma update_time_main_eq f out content :
  f "slides.md" = Some content ->
  update_time_main f out =
  Some (write_file "slides.md" (writelines (emits 0 (readlines content))) f,
        (out ++ flat_map diag_of (readlines content))%list).
Proof.
  intros H. unfold update_time_main, read_file. now rewrite H, update_time_eq.
Qed.

Lemma remove_transcript_main_eq f content :
  f "slides.md" = Some content ->
  remove_transcript_main f =
  Some (write_file "codes.md"
          (writelines (remove_transcript (readlines content))) f).
Proof. intros H. unfold remove_transcript_main, read_file. now rewrite H. Qed.

Lemma write_file_same name content f : write_file name content f name = Some content.
Proof. unfold write_file. now rewrite String.eqb_refl. Qed.

Lemma write_file_other name content f n :
  n <> name -> write_file name content f n = f n.
Proof. intros H. unfold write_file. apply String.eqb_neq in H. now rewrite H. Qed.

(** Reading back what [update_time.py] wrote gives the lines it wrote. *)
Lemma readlines_emits content :
  readlines (writelines (emits 0 (readlines content))) =
  emits 0 (readlines content).
Proof.
  apply readlines_writelines. rewrite emits_file_lines by lia.
  apply readlines_file_lines.
Qed.

(** Dropping lines keeps the shape of a file's lines. *)
Lemma file_lines_filter (p : string -> bool) lines :
  file_lines lines = true -> file_lines (filter p lines) = true.
Proof.
  induction lines as [|l ls IH]; intros H; [reflexivity|].
  cbn [file_lines] in H.
  apply andb_true_iff in H as [H Hls]. apply andb_true_iff in H as [Hl Ht].
  cbn [filter]. destruct (p l); [|now apply IH].
  cbn [file_lines]. rewrite Hl, (IH Hls), andb_true_r. cbn [andb].
  destruct (filter p ls) eqn:E; [reflexivity|].
  destruct ls; [discriminate E | exact Ht].
Qed.

Lemma readlines_removed content :
  readlines (writelines (remove_transcript (readlines content))) =
  remove_transcript (readlines content).
Proof.
  apply readlines_writelines. unfold remove_transcript.
  apply file_lines_filter, readlines_file_lines.
Qed.

End FilesFacts.

(* ================================================================= *)
(** ** The properties of the two scripts *)

Import Str Re Script Deck.
Import StrFacts ReFacts ScriptFacts.
Local Open Scope Z_scope.

(** *** Annotation Filter *)

(** C2: the filter returns exactly the lines that neither begin with
    [^] nor with [autoscale:], in their original order and unchanged;
    every line that begins with one of the two markers is left out. *)
Theorem remove_transcript_keeps_unmarked (lines : list string) :
  remove_transcript lines = keep_unmarked lines /\
  subsequence (remove_transcript lines) lines /\
  forall line,
    In line (remove_transcript lines) <-> In line lines /\ marker line = false.
Proof.
  split; [apply remove_transcript_eq|]. split.
  - apply filter_subsequence.
  - intros line. rewrite remove_transcript_eq. unfold keep_unmarked.
    rewrite filter_In, negb_true_iff. reflexivity.
Qed.

(** C8: on a document none of whose lines begins with [^] or with
    [autoscale:], the filter returns the document as it is. *)
Theorem remove_transcript_clean (lines : list string) :
  Forall (fun line => marker line = false) lines ->
  remove_transcript lines = lines.
Proof.
  intros H. rewrite remove_transcript_eq. unfold keep_unmarked.
  induction H as [|line lines Hl _ IH]; simpl; [reflexivity|].
  now rewrite Hl, IH.
Qed.

Lemma remove_transcript_clean_witness :
  Forall (fun line => marker line = false) ["# Title"; "some ^ text"; ""]%string /\
  remove_transcript ["# Title"; "some ^ text"; ""]%string =
  ["# Title"; "some ^ text"; ""]%string.
Proof.
  assert (H : Forall (fun line => marker line = false)
                ["# Title"; "some ^ text"; ""]%string)
    by (repeat constructor).
  split; [exact H | exact (remove_transcript_clean _ H)].
Defined.

(** *** Timestamp Normalizer *)

(** C1: on the two-line deck below the second line is a timed
    annotation with end time [0:00], reached when the clock shows 60
    seconds.  The script writes it back with its start time [5:00]
    still in place, where the start time [1:00] is due. *)
Theorem zero_duration_start_time_kept :
  let line1 := ("^ (0:00, 1:00) a" ++ newline)%string in
  let line2 := ("^ (5:00, 0:00) b" ++ newline)%string in
  let a2 := Annotation "5" "00" "0" "00" (" b" ++ newline) in
  timed line2 a2 /\
  duration a2 = 0 /\
  clock_at [line1; line2] 1 = 60 /\
  finishes [line1; line2] [line1; line2] 60 [] /\
  render (Annotation (fmt_d (60 / 60)) (fmt_02d (60 mod 60))
            (minutes2 a2) (seconds2 a2) (trailing a2))
    = ("^ (1:00, 0:00) b" ++ newline)%string /\
  nth_error (output [line1; line2]) 1 <>
    Some ("^ (1:00, 0:00) b" ++ newline)%string.
Proof.
  cbv zeta. repeat split; vm_compute; congruence.
Qed.

(** C5: on the three lines of the example the script writes the same
    three lines back; the clock is 0 before the first line, 90 after
    it and after the second, and 135 at the end; nothing is printed. *)
Theorem example_run :
  let lines :=
    ["^ (0:00, 1:30) intro"; "some text"; "^ (1:30, 0:45) next"]%string in
  finishes lines
    ["^ (0:00, 1:30) intro"; "some text"; "^ (1:30, 0:45) next"]%string 135 [] /\
  clock_at lines 0 = 0 /\ clock_at lines 1 = 90 /\
  clock_at lines 2 = 90 /\ clock_at lines 3 = 135.
Proof.
  cbv zeta. repeat split; vm_compute; reflexivity.
Qed.

(** C6: the script ends normally on every document and writes back as
    many lines as it read. *)
Theorem output_same_length (lines : list string) :
  exists out clock text,
    finishes lines out clock text /\ List.length out = List.length lines.
Proof.
  exists (output lines), (clock_at lines (List.length lines)), (printed lines).
  split; [apply run_finishes|].
  now rewrite output_eq, scan_length, length_map.
Qed.

(** C3: a line that begins with [^ (] and is no timed annotation adds
    exactly one entry to what is printed, [ERROR: ] followed by the
    line (and the newline of [print]), after the diagnostics of the
    lines before it and before those of the lines after it; the line is
    written back as it is, the clock keeps its value, and the run goes
    on to its normal end. *)
Theorem malformed_reported (lines : list string) (i : nat) (line : string) :
  nth_error lines i = Some line ->
  malformed line ->
  printed lines =
    printed (firstn i lines) ++ [error_message line] ++
    printed (skipn (S i) lines) /\
  nth_error (output lines) i = Some line /\
  clock_at lines (S i) = clock_at lines i /\
  finishes lines (output lines) (clock_at lines (List.length lines))
    (printed lines).
Proof.
  intros Hi [Hpre Hnot].
  destruct (time_of_not_timed line Hnot) as [Ht Hd]. rewrite Hpre in Hd.
  repeat split.
  - rewrite (printed_split lines i line Hi). now rewrite Hd.
  - apply output_untouched; [exact Hi | now rewrite Ht].
  - rewrite (clock_at_step lines i line Hi), Ht. lia.
  - apply run_finishes.
Qed.

Lemma malformed_reported_witness :
  let lines := ["^ (0:00, 0:10)"; "^ (1:2, abc)"; "text"]%string in
  printed lines = ["ERROR: ^ (1:2, abc)" ++ newline]%string /\
  nth_error (output lines) 1 = Some "^ (1:2, abc)"%string /\
  clock_at lines 2 = clock_at lines 1.
Proof.
  cbv zeta.
  destruct (malformed_reported
              ["^ (0:00, 0:10)"; "^ (1:2, abc)"; "text"]%string 1
              "^ (1:2, abc)" eq_refl) as (Hp & Ho & Hc & _).
  - split; [reflexivity | apply not_timed_search; reflexivity].
  - split; [exact Hp | split; [exact Ho | exact Hc]].
Defined.

(** C4, as the script has it: the clock starts at 0 and never goes
    down; at a timed annotation it moves up by exactly
    [minutes2 * 60 + seconds2], strictly so when that duration is
    positive; at every other line it keeps its value. *)
Theorem clock_monotone (lines : list string) :
  clock_at lines 0 = 0 /\
  (forall i, clock_at lines i <= clock_at lines (S i)) /\
  (forall i line, nth_error lines i = Some line ->
     (forall a, timed line a ->
        clock_at lines (S i) = clock_at lines i + duration a /\
        (0 < duration a -> clock_at lines i < clock_at lines (S i))) /\
     (~ is_timed line -> clock_at lines (S i) = clock_at lines i)).
Proof.
  split; [reflexivity|]. split.
  - intros i. destruct (nth_error lines i) as [line|] eqn:Hi.
    + rewrite (clock_at_step lines i line Hi).
      destruct (time_of line) as [d|] eqn:Hd; [|lia].
      apply time_of_nonneg in Hd. lia.
    + apply nth_error_None in Hi. unfold clock_at. rewrite !state_at_eq.
      rewrite !firstn_all2 by lia. lia.
  - intros i line Hi. split.
    + intros a Ha. rewrite (clock_at_step lines i line Hi).
      destruct (time_of_timed line a Ha) as [-> _]. split; lia.
    + intros Hn. rewrite (clock_at_step lines i line Hi).
      destruct (time_of_not_timed line Hn) as [-> _]. lia.
Qed.

Lemma clock_monotone_witness :
  let lines := ["^ (0:00, 1:30) intro"; "some text"]%string in
  clock_at lines 1 = clock_at lines 0 + 90 /\
  clock_at lines 0 < clock_at lines 1 /\
  clock_at lines 2 = clock_at lines 1.
Proof.
  cbv zeta.
  destruct (clock_monotone ["^ (0:00, 1:30) intro"; "some text"]%string)
    as (_ & _ & H).
  destruct (H 0%nat "^ (0:00, 1:30) intro"%string eq_refl) as [Ht _].
  destruct (Ht (Annotation "0" "00" "1" "30" " intro")) as [Hadd Hlt];
    [split; reflexivity|].
  destruct (H 1%nat "some text"%string eq_refl) as [_ Hn].
  split; [exact Hadd | split].
  - apply Hlt. reflexivity.
  - apply Hn. apply not_timed_search. reflexivity.
Defined.

(** C4 as first stated fails: the line [^ (0:00, 0:00)] is a timed
    annotation and the clock is 0 before it and 0 after it. *)
Lemma clock_not_strict :
  let lines := ["^ (0:00, 0:00)"]%string in
  nth_error lines 0 = Some "^ (0:00, 0:00)"%string /\
  timed "^ (0:00, 0:00)" (Annotation "0" "00" "0" "00" "") /\
  ~ (clock_at lines 0 < clock_at lines 1).
Proof.
  cbv zeta. repeat split. vm_compute. discriminate.
Qed.

(** C10: a timed annotation whose end time amounts to zero seconds is
    written back as it is, start time included; nothing is printed for
    it and the clock keeps its value. *)
Theorem zero_duration_passthrough
  (lines : list string) (i : nat) (line : string) (a : annotation) :
  nth_error lines i = Some line ->
  timed line a ->
  duration a = 0 ->
  nth_error (output lines) i = Some line /\
  printed lines = printed (firstn i lines) ++ printed (skipn (S i) lines) /\
  clock_at lines (S i) = clock_at lines i.
Proof.
  intros Hi Ha Hd. destruct (time_of_timed line a Ha) as [Ht Hdiag].
  rewrite Hd in Ht. split; [|split].
  - apply output_untouched; [exact Hi | now rewrite Ht].
  - rewrite (printed_split lines i line Hi). now rewrite Hdiag.
  - rewrite (clock_at_step lines i line Hi), Ht. lia.
Qed.

Lemma zero_duration_passthrough_witness :
  let lines := ["^ (0:00, 1:00) a"; "^ (5:00, 0:00) b"; "^ (x"]%string in
  nth_error (output lines) 1 = Some "^ (5:00, 0:00) b"%string /\
  printed lines = printed (firstn 1 lines) ++ printed (skipn 2 lines) /\
  clock_at lines 2 = clock_at lines 1.
Proof.
  cbv zeta.
  apply (zero_duration_passthrough
           ["^ (0:00, 1:00) a"; "^ (5:00, 0:00) b"; "^ (x"]%string 1
           "^ (5:00, 0:00) b" (Annotation "5" "00" "0" "00" " b")).
  - reflexivity.
  - split; reflexivity.
  - reflexivity.
Defined.

(** C7: in a rewritten timed annotation the start time is the clock's
    minutes in plain decimal (no padding, no leading zero) and its
    seconds as exactly two digits; when the clock shows 65 seconds the
    start time reads [1:05]. *)
Theorem rewritten_time_format
  (lines : list string) (i : nat) (line : string) (a : annotation) :
  nth_error lines i = Some line ->
  timed line a ->
  duration a <> 0 ->
  let c := clock_at lines i in
  let mm := fmt_d (c / 60) in
  let ss := fmt_02d (c mod 60) in
  nth_error (output lines) i =
    Some (render (Annotation mm ss (minutes2 a) (seconds2 a) (trailing a))) /\
  plain_decimal mm = true /\ digits_value mm = c / 60 /\
  two_digits ss = true /\ digits_value ss = c mod 60 /\
  (c = 65 -> mm = "1"%string /\ ss = "05"%string).
Proof.
  intros Hi Ha Hd c mm ss.
  pose proof (clock_at_nonneg lines i) as Hc. fold c in Hc.
  assert (Hmin : 0 <= c / 60) by (apply Z.div_pos; lia).
  assert (Hsec : 0 <= c mod 60 < 100)
    by (pose proof (Z.mod_pos_bound c 60); lia).
  destruct (fmt_d_plain _ Hmin) as [Hp Hv].
  destruct (fmt_02d_two _ Hsec) as [Ht Hw].
  split; [exact (output_timed lines i line a Hi Ha Hd)|].
  repeat (split; [assumption|]).
  intros E. unfold mm, ss. rewrite E. split; reflexivity.
Qed.

Lemma rewritten_time_format_witness :
  let lines := ["^ (0:00, 1:05) a"; "^ (9:99, 0:10) b"]%string in
  nth_error (output lines) 1 =
    Some (render (Annotation (fmt_d (clock_at lines 1 / 60))
                    (fmt_02d (clock_at lines 1 mod 60)) "0" "10" " b")) /\
  fmt_d (clock_at lines 1 / 60) = "1"%string /\
  fmt_02d (clock_at lines 1 mod 60) = "05"%string.
Proof.
  cbv zeta.
  destruct (rewritten_time_format
              ["^ (0:00, 1:05) a"; "^ (9:99, 0:10) b"]%string 1
              "^ (9:99, 0:10) b" (Annotation "9" "99" "0" "10" " b"))
    as (Ho & _ & _ & _ & _ & H65).
  - reflexivity.
  - split; reflexivity.
  - discriminate.
  - split; [exact Ho | apply H65; reflexivity].
Defined.

(** C9: every line is written back either as it is or, for a timed
    annotation, with nothing but the two start-time fields replaced by
    digits: the text from the comma on (end time and what follows) is
    the input's; a line that is no timed annotation is written back as
    it is. *)
Theorem only_start_time_changes
  (lines : list string) (i : nat) (line : string) :
  nth_error lines i = Some line ->
  exists out_line,
    nth_error (output lines) i = Some out_line /\
    (~ is_timed line -> out_line = line) /\
    (forall a, timed line a ->
       exists mm ss,
         is_number mm = true /\ is_number ss = true /\
         out_line =
           render (Annotation mm ss (minutes2 a) (seconds2 a) (trailing a))).
Proof.
  intros Hi. exists (emit (clock_at lines i) (tag line)).
  split; [apply output_nth, Hi|]. split.
  - intros Hn. destruct (time_of_not_timed line Hn) as [Ht _].
    unfold emit, tag. cbn [fst snd]. now rewrite Ht.
  - intros a Ha.
    assert (Hout := output_nth lines i line Hi).
    destruct (Z.eq_dec (duration a) 0) as [Hz | Hnz].
    + destruct (time_of_timed line a Ha) as [Ht _]. rewrite Hz in Ht.
      rewrite (output_untouched lines i line Hi) in Hout by now rewrite Ht.
      injection Hout as <-. destruct Ha as [Hwf ->].
      apply well_formed_fields in Hwf as (H1 & H2 & _ & _).
      exists (minutes1 a), (seconds1 a).
      split; [exact H1 | split; [exact H2 | now destruct a]].
    + rewrite (output_timed lines i line a Hi Ha Hnz) in Hout.
      injection Hout as <-.
      pose proof (clock_at_nonneg lines i) as Hc.
      assert (Hmin : 0 <= clock_at lines i / 60) by (apply Z.div_pos; lia).
      assert (Hsec : 0 <= clock_at lines i mod 60 < 100)
        by (pose proof (Z.mod_pos_bound (clock_at lines i) 60); lia).
      destruct (fmt_d_number _ Hmin) as [Hm _].
      destruct (fmt_02d_two _ Hsec) as [Hs _].
      apply andb_true_iff in Hs as [Hs _].
      eexists; eexists. split; [exact Hm | split; [exact Hs | reflexivity]].
Qed.

Lemma only_start_time_changes_witness :
  exists out_line,
    nth_error
      (output ["^ (0:00, 1:30) intro"; "some text"; "^ (9:99, 0:45) next"]%string)
      2 = Some out_line /\
    (~ is_timed "^ (9:99, 0:45) next" -> out_line = "^ (9:99, 0:45) next"%string) /\
    (forall a, timed "^ (9:99, 0:45) next" a ->
       exists mm ss,
         is_number mm = true /\ is_number ss = true /\
         out_line =
           render (Annotation mm ss (minutes2 a) (seconds2 a) (trailing a))).
Proof.
  exact (only_start_time_changes
           ["^ (0:00, 1:30) intro"; "some text"; "^ (9:99, 0:45) next"]%string
           2 "^ (9:99, 0:45) next" eq_refl).
Defined.

(* ================================================================= *)
(** ** Further properties: the scan as a whole *)

Import Trace TraceFacts.

(** X1: run on the lines it wrote, [update_time.py] writes the same
    lines again, ends with the same clock and prints the same
    diagnostics. *)
Theorem update_time_idempotent (lines : list string) :
  exists out clock text,
    finishes lines out clock text /\ finishes out out clock text.
Proof.
  exists (emits 0 lines), (total lines), (flat_map diag_of lines).
  unfold finishes. rewrite !run_emits.
  destruct (emits_fixed lines 0 ltac:(lia)) as (-> & -> & ->).
  now split.
Qed.

(** X2: the filter gives the same lines whether it runs on a deck or
    on what [update_time.py] made of that deck. *)
Theorem filter_after_update (lines : list string) :
  remove_transcript (output lines) = remove_transcript lines.
Proof. rewrite output_emits. apply remove_emits. Qed.

(** X3: what the script writes for the first lines of a deck, the
    clock it reaches there and what it prints for them do not depend
    on the lines that follow; diagnostics and final clocks of two
    decks put end to end add up. *)
Theorem prefix_stable (pre post : list string) :
  firstn (List.length pre) (output (pre ++ post)) = output pre /\
  clock_at (pre ++ post) (List.length pre) = clock_at pre (List.length pre) /\
  printed (pre ++ post) = printed pre ++ printed post /\
  clock_at (pre ++ post) (List.length (pre ++ post)) =
    clock_at pre (List.length pre) + clock_at post (List.length post).
Proof.
  rewrite !output_emits, !clock_at_total, !printed_eq.
  rewrite emits_app, flat_map_app, !firstn_all, total_app.
  rewrite <- (emits_length pre 0) at 1.
  rewrite firstn_app, Nat.sub_diag, firstn_all, firstn_O, app_nil_r.
  rewrite firstn_app, Nat.sub_diag, firstn_all, firstn_O, app_nil_r.
  now repeat split.
Qed.

(** X4: the start time written into a timed annotation of non-zero
    duration, read back with [int] as minutes and seconds, is the sum
    of the durations of the timed annotations before it; its seconds
    are below sixty. *)
Theorem start_time_is_elapsed
  (lines : list string) (i : nat) (line : string) (a : annotation) (t : Z) :
  nth_error lines i = Some line ->
  timed line a ->
  duration a <> 0 ->
  deck_total (firstn i lines) t ->
  exists mm ss m s,
    nth_error (output lines) i =
      Some (render (Annotation mm ss (minutes2 a) (seconds2 a) (trailing a))) /\
    int mm = Some m /\ int ss = Some s /\
    m * 60 + s = t /\ 0 <= s < 60.
Proof.
  intros Hi Ha Hd Ht. apply deck_total_eq in Ht.
  rewrite <- clock_at_total in Ht.
  pose proof (clock_at_nonneg lines i) as Hc.
  assert (Hmin : 0 <= clock_at lines i / 60) by (apply Z.div_pos; lia).
  pose proof (Z.mod_pos_bound (clock_at lines i) 60 ltac:(lia)) as Hsec.
  destruct (fmt_d_number _ Hmin) as [Hm Hmv].
  destruct (fmt_02d_two (clock_at lines i mod 60) ltac:(lia)) as [Hs Hsv].
  apply andb_true_iff in Hs as [Hs _].
  exists (fmt_d (clock_at lines i / 60)), (fmt_02d (clock_at lines i mod 60)),
    (clock_at lines i / 60), (clock_at lines i mod 60).
  split; [exact (output_timed lines i line a Hi Ha Hd)|].
  rewrite (int_number _ Hm), (int_number _ Hs), Hmv, Hsv.
  repeat split; try lia.
  pose proof (Z.div_mod (clock_at lines i) 60 ltac:(lia)). lia.
Qed.

Lemma start_time_is_elapsed_witness :
  exists mm ss m s,
    nth_error
      (output ["^ (0:00, 1:05) a"; "note"; "^ (9:99, 0:10) b"]%string) 2 =
      Some (render (Annotation mm ss "0" "10" " b")) /\
    int mm = Some m /\ int ss = Some s /\
    m * 60 + s = 65 /\ 0 <= s < 60.
Proof.
  apply (start_time_is_elapsed
           ["^ (0:00, 1:05) a"; "note"; "^ (9:99, 0:10) b"]%string 2
           "^ (9:99, 0:10) b" (Annotation "9" "99" "0" "10" " b") 65).
  - reflexivity.
  - split; reflexivity.
  - discriminate.
  - change 65 with (duration (Annotation "0" "00" "1" "05" " a") + 0).
    apply total_timed; [split; reflexivity|].
    apply total_other; [apply not_timed_search; reflexivity | constructor].
Defined.

(** X5: the clock the script ends with is the sum of the durations of
    the deck's timed annotations, and that sum is determined by the
    deck. *)
Theorem final_clock_is_deck_total (lines : list string) (t : Z) :
  deck_total lines t ->
  (exists out text, finishes lines out t text) /\
  (forall t', deck_total lines t' -> t' = t).
Proof.
  intros Ht. apply deck_total_eq in Ht. subst t. split.
  - exists (emits 0 lines), (flat_map diag_of lines). apply run_emits.
  - intros t' Ht'. now apply deck_total_eq in Ht'.
Qed.

Lemma final_clock_is_deck_total_witness :
  (exists out text,
     finishes ["^ (0:00, 1:05) a"; "note"]%string out 65 text) /\
  (forall t', deck_total ["^ (0:00, 1:05) a"; "note"]%string t' -> t' = 65).
Proof.
  apply (final_clock_is_deck_total ["^ (0:00, 1:05) a"; "note"]%string 65).
  change 65 with (duration (Annotation "0" "00" "1" "05" " a") + 0).
  apply total_timed; [split; reflexivity|].
  apply total_other; [apply not_timed_search; reflexivity | constructor].
Defined.

(** X6: the script prints one entry per malformed line and nothing
    else: an entry is printed exactly when it is the error message of
    a malformed line of the deck, and there are never more entries
    than lines. *)
Theorem printed_are_malformed (lines : list string) :
  (forall e,
     In e (printed lines) <->
     exists line, In line lines /\ malformed line /\ e = error_message line) /\
  (List.length (printed lines) <= List.length lines)%nat.
Proof.
  rewrite printed_eq. split.
  - intros e. rewrite in_flat_map. split.
    + intros (line & Hl & He). apply diag_of_In in He. now exists line.
    + intros (line & Hl & Hm & He). exists line. split; [exact Hl|].
      now apply diag_of_In.
  - induction lines as [|l ls IH]; [reflexivity|].
    cbn [flat_map]. rewrite length_app. cbn [List.length].
    assert (List.length (diag_of l) <= 1)%nat; [|lia].
    destruct (is_timed_or_not l) as [(a & Ha) | Hn].
    + destruct (time_of_timed l a Ha) as [_ ->]. simpl. lia.
    + destruct (time_of_not_timed l Hn) as [_ ->].
      destruct (starts_with "^ (" l); simpl; lia.
Qed.

(** X7: a deck none of whose lines begins with [^ (] is written back
    as it is, with the clock at zero and nothing printed. *)
Theorem plain_deck_unchanged (lines : list string) :
  Forall (fun line => starts_with "^ (" line = false) lines ->
  finishes lines lines 0 [].
Proof.
  exact (plain_deck_unchanged_lemma lines).
Qed.

Lemma plain_deck_unchanged_witness :
  finishes ["# Title"; "^ note"; "autoscale: true"]%string
    ["# Title"; "^ note"; "autoscale: true"]%string 0 [].
Proof.
  apply (plain_deck_unchanged ["# Title"; "^ note"; "autoscale: true"]%string).
  repeat constructor.
Defined.

(** X8: the script never changes what kind of line a line is: the line
    written is a timed annotation exactly when the line read is, and
    then with the same end fields and trailing text; it is malformed
    exactly when the line read is. *)
Theorem kind_preserved
  (lines : list string) (i : nat) (line out_line : string) :
  nth_error lines i = Some line ->
  nth_error (output lines) i = Some out_line ->
  (is_timed line <-> is_timed out_line) /\
  (malformed line <-> malformed out_line) /\
  (forall a, timed line a ->
     exists mm ss,
       timed out_line
         (Annotation mm ss (minutes2 a) (seconds2 a) (trailing a))).
Proof.
  intros Hi Ho. rewrite (output_nth lines i line Hi) in Ho. injection Ho as <-.
  pose proof (clock_at_nonneg lines i) as Hc.
  set (c := clock_at lines i) in *.
  assert (Hfields : forall a, timed line a ->
            exists mm ss,
              timed (emit c (tag line))
                (Annotation mm ss (minutes2 a) (seconds2 a) (trailing a))).
  { intros a Ha. destruct (Z.eq_dec (duration a) 0) as [Hz | Hnz].
    - destruct (time_of_timed line a Ha) as [Ht _]. rewrite Hz in Ht.
      rewrite emit_same by now rewrite Ht.
      exists (minutes1 a), (seconds1 a). now destruct a.
    - rewrite (emit_timed c line a Ha Hnz). eexists; eexists.
      split; [|reflexivity]. apply rewritten_well_formed; [exact Hc|].
      now destruct Ha. }
  assert (Hiff : is_timed line <-> is_timed (emit c (tag line))).
  { split.
    - intros (a & Ha). destruct (Hfields a Ha) as (mm & ss & H).
      eexists. exact H.
    - intros Ho. destruct (is_timed_or_not line) as [H | H]; [exact H|].
      now rewrite (emit_not_timed c line H) in Ho. }
  split; [exact Hiff|]. split; [|exact Hfields].
  unfold malformed. destruct (is_timed_or_not line) as [H | H].
  - split; intros [_ Hn]; exfalso; apply Hn; [exact H | now apply Hiff].
  - now rewrite (emit_not_timed c line H).
Qed.

Lemma kind_preserved_witness :
  (is_timed "^ (9:99, 0:10) b" <-> is_timed "^ (1:05, 0:10) b") /\
  (malformed "^ (9:99, 0:10) b" <-> malformed "^ (1:05, 0:10) b") /\
  (forall a, timed "^ (9:99, 0:10) b" a ->
     exists mm ss,
       timed "^ (1:05, 0:10) b"
         (Annotation mm ss (minutes2 a) (seconds2 a) (trailing a))).
Proof.
  apply (kind_preserved ["^ (0:00, 1:05) a"; "^ (9:99, 0:10) b"]%string 1);
    reflexivity.
Defined.

(** X9: on the lines the filter keeps, [update_time.py] changes
    nothing, leaves the clock at zero and prints nothing. *)
Theorem update_after_filter (lines : list string) :
  finishes (remove_transcript lines) (remove_transcript lines) 0 [].
Proof.
  apply plain_deck_unchanged_lemma.
  apply Forall_forall. intros line H.
  rewrite remove_transcript_eq in H. unfold keep_unmarked in H.
  apply filter_In in H as [_ H]. apply negb_true_iff in H.
  now apply unmarked_no_prefix.
Qed.

(** X10: filtering twice is filtering once. *)
Theorem remove_transcript_idempotent (lines : list string) :
  remove_transcript (remove_transcript lines) = remove_transcript lines.
Proof.
  rewrite !remove_transcript_eq. unfold keep_unmarked.
  induction lines as [|l ls IH]; [reflexivity|]. cbn [filter].
  destruct (negb (marker l)) eqn:E; [|exact IH].
  cbn [filter]. now rewrite E, IH.
Qed.

(* ================================================================= *)
(** ** Further properties: the scripts on the files *)

Import Files FilesFacts.


(** X12: when [slides.md] exists, [update_time.py] replaces it and
    touches no other file; the new file, read line by line, is the
    list of lines the loop built, so it has as many lines as the old
    one; what is printed is added after what was printed before. *)
Theorem update_time_main_writes (f : fs) (out : stdout) (content : string) :
  f "slides.md"%string = Some content ->
  exists f' new,
    update_time_main f out = Some (f', out ++ printed (readlines content)) /\
    f' "slides.md"%string = Some new /\
    (forall n, n <> "slides.md"%string -> f' n = f n) /\
    readlines new = output (readlines content) /\
    List.length (readlines new) = List.length (readlines content).
Proof.
  intros H. eexists. eexists.
  rewrite (update_time_main_eq f out content H), printed_eq.
  split; [reflexivity|]. split; [apply write_file_same|].
  split; [intros n Hn; now apply write_file_other|].
  rewrite readlines_emits, output_emits. split; [reflexivity|].
  apply emits_length.
Qed.

Lemma update_time_main_writes_witness :
  let content := ("^ (0:00, 1:05) a" ++ newline ++ "^ (x" ++ newline ++
                  "^ (9:99, 0:10) b")%string in
  exists f' new,
    update_time_main (only_slides content) [] =
      Some (f', [] ++ printed (readlines content)) /\
    f' "slides.md"%string = Some new /\
    (forall n, n <> "slides.md"%string -> f' n = only_slides content n) /\
    readlines new = output (readlines content) /\
    List.length (readlines new) = List.length (readlines content).
Proof.
  intros content.
  exact (update_time_main_writes (only_slides content) [] content eq_refl).
Defined.

(** X13: when [slides.md] exists, [remove_transcript.py] writes
    [codes.md] and touches no other file; [codes.md], read line by
    line, is the list of the lines kept; when no line of [slides.md]
    begins with a marker, [codes.md] is a byte-for-byte copy. *)
Theorem remove_transcript_main_writes (f : fs) (content : string) :
  f "slides.md"%string = Some content ->
  exists f' new,
    remove_transcript_main f = Some f' /\
    f' "codes.md"%string = Some new /\
    (forall n, n <> "codes.md"%string -> f' n = f n) /\
    readlines new = remove_transcript (readlines content) /\
    (Forall (fun line => marker line = false) (readlines content) ->
     new = content).
Proof.
  intros H. eexists. eexists.
  rewrite (remove_transcript_main_eq f content H).
  split; [reflexivity|]. split; [apply write_file_same|].
  split; [intros n Hn; now apply write_file_other|].
  split; [apply readlines_removed|].
  intros Hclean. rewrite remove_transcript_eq. unfold keep_unmarked.
  rewrite <- (writelines_readlines content) at 2. f_equal.
  induction Hclean as [|l ls Hl _ IH]; [reflexivity|].
  cbn [filter]. now rewrite Hl, IH.
Qed.

Lemma remove_transcript_main_writes_witness :
  let content := ("# Title" ++ newline ++ "^ (0:00, 1:05) a" ++ newline ++
                  "text")%string in
  exists f' new,
    remove_transcript_main (only_slides content) = Some f' /\
    f' "codes.md"%string = Some new /\
    (forall n, n <> "codes.md"%string -> f' n = only_slides content n) /\
    readlines new = remove_transcript (readlines content) /\
    (Forall (fun line => marker line = false) (readlines content) ->
     new = content).
Proof.
  intros content.
  exact (remove_transcript_main_writes (only_slides content) content eq_refl).
Defined.

(** X14: a [slides.md] none of whose lines begins with [^ (] is
    written back with the same bytes; nothing is printed. *)
Theorem update_time_main_plain (f : fs) (out : stdout) (content : string) :
  f "slides.md"%string = Some content ->
  Forall (fun line => starts_with "^ (" line = false) (readlines content) ->
  exists f', update_time_main f out = Some (f', out) /\ same_files f' f.
Proof.
  intros H Hplain. destruct (plain_deck _ Hplain) as (_ & Hd & He).
  eexists. rewrite (update_time_main_eq f out content H), Hd, He, app_nil_r.
  rewrite writelines_readlines. split; [reflexivity|].
  intros n. unfold write_file.
  destruct (String.eqb_spec n "slides.md") as [-> | _]; [now rewrite H | reflexivity].
Qed.

Lemma update_time_main_plain_witness :
  let content := ("# Title" ++ newline ++ "^ note" ++ newline)%string in
  exists f',
    update_time_main (only_slides content) [] = Some (f', []) /\
    same_files f' (only_slides content).
Proof.
  intros content.
  apply (update_time_main_plain (only_slides content) [] content eq_refl).
  repeat constructor.
Defined.

(** X15: run a second time, [update_time.py] leaves every file as the
    first run left it and prints the same diagnostics again. *)
Theorem update_time_main_idempotent (f : fs) (out : stdout) (content : string) :
  f "slides.md"%string = Some content ->
  exists f1 f2 text,
    update_time_main f out = Some (f1, out ++ text) /\
    update_time_main f1 (out ++ text) = Some (f2, (out ++ text) ++ text) /\
    same_files f2 f1.
Proof.
  intros H.
  set (new := writelines (emits 0 (readlines content))).
  assert (H1 : write_file "slides.md" new f "slides.md"%string = Some new)
    by apply write_file_same.
  exists (write_file "slides.md" new f),
    (write_file "slides.md" new (write_file "slides.md" new f)),
    (flat_map diag_of (readlines content)).
  split; [apply (update_time_main_eq f out content H)|].
  rewrite (update_time_main_eq _ (out ++ _) new H1).
  subst new. rewrite readlines_emits.
  destruct (emits_fixed (readlines content) 0 ltac:(lia)) as (-> & _ & ->).
  split; [reflexivity|].
  intros n. unfold write_file. now destruct (String.eqb n "slides.md").
Qed.

Lemma update_time_main_idempotent_witness :
  let content := ("^ (0:00, 1:05) a" ++ newline ++ "^ (x" ++ newline ++
                  "^ (9:99, 0:10) b")%string in
  exists f1 f2 text,
    update_time_main (only_slides content) [] = Some (f1, [] ++ text) /\
    update_time_main f1 ([] ++ text) = Some (f2, ([] ++ text) ++ text) /\
    same_files f2 f1.
Proof.
  intros content.
  exact (update_time_main_idempotent (only_slides content) [] content eq_refl).
Defined.

(** X16: the two scripts can be run in either order: the files at the
    end are the same, and so is what is printed. *)
Theorem scripts_commute (f : fs) (out : stdout) (content : string) :
  f "slides.md"%string = Some content ->
  exists f1 f12 g1 g12 text,
    update_time_main f out = Some (f1, out ++ text) /\
    remove_transcript_main f1 = Some f12 /\
    remove_transcript_main f = Some g1 /\
    update_time_main g1 out = Some (g12, out ++ text) /\
    same_files f12 g12.
Proof.
  intros H.
  set (new := writelines (emits 0 (readlines content))).
  set (codes := writelines (remove_transcript (readlines content))).
  assert (H1 : write_file "slides.md" new f "slides.md"%string = Some new)
    by apply write_file_same.
  assert (H2 : write_file "codes.md" codes f "slides.md"%string = Some content)
    by (rewrite write_file_other; [exact H | discriminate]).
  exists (write_file "slides.md" new f),
    (write_file "codes.md" codes (write_file "slides.md" new f)),
    (write_file "codes.md" codes f),
    (write_file "slides.md" new (write_file "codes.md" codes f)),
    (flat_map diag_of (readlines content)).
  split; [apply (update_time_main_eq f out content H)|].
  split.
  { rewrite (remove_transcript_main_eq _ new H1). subst new codes.
    now rewrite readlines_emits, remove_emits. }
  split; [apply (remove_transcript_main_eq f content H)|].
  split; [apply (update_time_main_eq _ out content H2)|].
  intros n. unfold write_file.
  destruct (String.eqb_spec n "codes.md") as [-> | _]; [|reflexivity].
  reflexivity.
Qed.

Lemma scripts_commute_witness :
  let content := ("# Title" ++ newline ++ "^ (0:00, 1:05) a" ++ newline ++
                  "^ (9:99, 0:10) b" ++ newline ++ "text")%string in
  exists f1 f12 g1 g12 text,
    update_time_main (only_slides content) [] = Some (f1, [] ++ text) /\
    remove_transcript_main f1 = Some f12 /\
    remove_transcript_main (only_slides content) = Some g1 /\
    update_time_main g1 [] = Some (g12, [] ++ text) /\
    same_files f12 g12.
Proof.
  intros content.
  exact (scripts_commute (only_slides content) [] content eq_refl).
Defined.
